(** * facepy: the Graph API client ([facepy/graph_api.py])

    A shallow embedding of class [GraphAPI]: construction, the four verbs
    [get], [post], [delete], [search], the shared request path [_query]
    and the response normalisation [_parse].

    Python values are an inductive type, dictionaries are [gmap string _],
    exceptions are a result type, and the mutable objects a call can reach
    (the keyword dictionaries and the default value of [_query]'s [data]
    parameter) live in an explicit heap threaded through a state and error
    monad. The collaborators that are not part of the file (the HTTP
    transport, the JSON decoder, the URL helpers of the standard library
    and the signed request parser) are the fields of a class [Externals]
    over which every definition and theorem is parametric. *)

From Stdlib Require Import ZArith String Ascii DecimalString.
From stdpp Require Import base option list gmap strings fin_maps.

Local Open Scope string_scope.
Set Warnings "-register-all".

(** ** Python values *)

(** The values that reach the client: what [json.loads] can return and
    what a caller can pass as a parameter. [str] and [unicode] are both
    [PStr]; numbers are integers. A tuple is a sequence that is not a
    [list]; only a caller can pass one. *)
Inductive pyval : Type :=
  | PNone
  | PBool (b : bool)
  | PInt (n : Z)
  | PStr (s : string)
  | PList (l : list pyval)
  | PTuple (l : list pyval)
  | PDict (d : gmap string pyval).

Abbreviation dict := (gmap string pyval).

(** Truth value testing, as [if x:] and [not x] do it. *)
Definition truthy (v : pyval) : bool :=
  match v with
  | PNone => false
  | PBool b => b
  | PInt n => negb (n =? 0)%Z
  | PStr s => negb (String.eqb s EmptyString)
  | PList l => match l with [] => false | _ => true end
  | PTuple l => match l with [] => false | _ => true end
  | PDict d => negb (bool_decide (d = ∅))
  end.

(** [type(item) in (str, unicode)] *)
Definition is_string (v : pyval) : bool :=
  match v with PStr _ => true | _ => false end.

Definition str_of (v : pyval) : string :=
  match v with PStr s => s | _ => EmptyString end.

(** The double quote character, for the messages that contain it. *)
Definition dquote : string := String "034"%char EmptyString.

(** ** Exceptions and results *)

Inductive exn : Type :=
  | Error (message : pyval)          (* GraphAPI.Error, the API error *)
  | ValueError (message : string)
  | TypeError
  | KeyError (key : string)
  | TransportError (what : string).  (* whatever the transport raises *)

Inductive result (A : Type) : Type :=
  | Ok (a : A)
  | Raise (e : exn).
Arguments Ok {A} a.
Arguments Raise {A} e.

(** [v[k]] for a string key [k]: a dictionary looks the key up, every other
    of the values above refuses a string index. *)
Definition getitem (v : pyval) (k : string) : result pyval :=
  match v with
  | PDict d => match d !! k with Some x => Ok x | None => Raise (KeyError k) end
  | _ => Raise TypeError
  end.

Global Instance result_ret : MRet result := λ A a, Ok a.
Global Instance result_bind : MBind result := λ A B f r,
  match r with Ok a => f a | Raise e => Raise e end.

(** ** The collaborators *)

(** What [urlparse.urlparse] returns: a named tuple of six strings. *)
Record ParseResult : Type := mkParseResult {
  scheme : string;
  netloc : string;
  path : string;
  params : string;
  query : string;
  fragment : string
}.

(** [url_p._replace(query=q)] *)
Definition _replace_query (url_p : ParseResult) (q : string) : ParseResult :=
  {| scheme := scheme url_p; netloc := netloc url_p; path := path url_p;
     params := params url_p; query := q; fragment := fragment url_p |}.

(** Everything the module imports. [json_loads] answers [None] where
    [json.loads] raises [ValueError]. [requests_request n method url data]
    is the body of the response to the request issued after [n] earlier
    ones, or the exception the transport raises. [parse_signed_request]
    (module [signed_request] of the package) returns the decoded payload,
    a mapping, or raises. *)
Class Externals : Type := {
  json_loads : string → option pyval;
  requests_request : nat → string → string → option dict → result string;
  urlparse : string → ParseResult;
  geturl : ParseResult → string;
  parse_qs : string → dict;
  urlencode : dict → string;
  parse_signed_request : pyval → pyval → result dict
}.

(** ** The state of the interpreter that the client can reach *)

(** One request handed to the transport. [sent_params] is the parameter
    mapping the request transmits: for GET and DELETE the mapping encoded
    into the query string of [sent_url], for the other methods the body. *)
Record request : Type := mkRequest {
  sent_method : string;
  sent_url : string;
  sent_body : option dict;
  sent_params : dict
}.

(** A reference to a dictionary object: the one that [def _query(self,
    method, path, data={})] creates once, when the class body is executed,
    and keeps as the default value of [data], or one created later, by
    its address. *)
Inductive ref : Type :=
  | QueryDefault
  | Allocated (address : nat).

(** [query_default] is the contents of the default dictionary of
    [_query], [heap] holds the dictionaries created since, [sent] the
    requests issued so far, oldest first, [parsed] the calls of the signed
    request parser. *)
Record state : Type := mkState {
  query_default : dict;
  heap : list dict;
  sent : list request;
  parsed : list (pyval * pyval)
}.

(** The state once the module is imported. *)
Definition initial_state : state :=
  {| query_default := ∅; heap := []; sent := []; parsed := [] |}.

Definition deref (s : state) (r : ref) : dict :=
  match r with
  | QueryDefault => query_default s
  | Allocated n => default ∅ (heap s !! n)
  end.

Definition assign (r : ref) (d : dict) (s : state) : state :=
  match r with
  | QueryDefault =>
      {| query_default := d; heap := heap s; sent := sent s; parsed := parsed s |}
  | Allocated n =>
      {| query_default := query_default s; heap := <[n := d]> (heap s);
         sent := sent s; parsed := parsed s |}
  end.

Definition allocate (d : dict) (s : state) : state :=
  {| query_default := query_default s; heap := heap s ++ [d];
     sent := sent s; parsed := parsed s |}.

Definition record_request (r : request) (s : state) : state :=
  {| query_default := query_default s; heap := heap s;
     sent := sent s ++ [r]; parsed := parsed s |}.

Definition record_parse (signed_request app_secret : pyval) (s : state) : state :=
  {| query_default := query_default s; heap := heap s; sent := sent s;
     parsed := parsed s ++ [(signed_request, app_secret)] |}.

(** ** The state and exception monad *)

Definition M (A : Type) : Type := state → result A * state.

Global Instance M_ret : MRet M := λ A a s, (Ok a, s).
Global Instance M_bind : MBind M := λ A B f m s,
  match m s with
  | (Ok a, s') => f a s'
  | (Raise e, s') => (Raise e, s')
  end.

Definition raise {A : Type} (e : exn) : M A := λ s, (Raise e, s).

Definition lift {A : Type} (r : result A) : M A := λ s, (r, s).

(** A new dictionary object with the contents [d]. *)
Definition new_dict (d : dict) : M ref := λ s,
  (Ok (Allocated (length (heap s))), allocate d s).

Definition load (r : ref) : M dict := λ s, (Ok (deref s r), s).

Definition store (r : ref) (d : dict) : M unit := λ s, (Ok (), assign r d s).

(** ** class GraphAPI *)

(** An instance: its one attribute. [PNone] is Python's [None]. *)
Record client : Type := mkClient { oauth_token : pyval }.

(** [response is False] *)
Definition is_False (v : pyval) : bool :=
  match v with PBool false => true | _ => false end.

(** [type(value) is list and all([type(item) in (str, unicode) for item in
    value])] *)
Definition is_string_list (v : pyval) : bool :=
  match v with PList l => forallb is_string l | _ => false end.

(** [','.join(value)] for a [value] that passed the test above. *)
Definition join_commas (v : pyval) : pyval :=
  match v with
  | PList l => PStr (String.concat "," (str_of <$> l))
  | _ => v
  end.

(** One round of the loop of [_query]: [data[key] = ','.join(value)] under
    its test. *)
Definition flatten_item (key : string) (value : pyval) (data : dict) : dict :=
  if is_string_list value then <[key := join_commas value]> data else data.

(** [for key, value in data.items(): ...]. [items()] is a list built before
    the first round, so the loop runs over the entries [data] had on entry
    while the assignments go to [data] itself. *)
Definition flatten_lists (data : dict) : dict :=
  map_fold flatten_item data data.

Module GraphAPI.
Section GraphAPI.
Context {ext : Externals}.

(** [requests.request(method, url, data=body)] followed by
    [response.content]; the request is on record whether or not the
    transport raises. *)
Definition request_content (method url : string) (body : option dict)
    (transmitted : dict) : M string := λ s,
  (requests_request (length (sent s)) method url body,
   record_request (mkRequest method url body transmitted) s).

Definition call_parse_signed_request (signed_request app_secret : pyval)
    : M dict := λ s,
  (parse_signed_request signed_request app_secret,
   record_parse signed_request app_secret s).

Definition __init__ (oauth_token signed_request app_secret : pyval)
    : M client :=
  if negb (truthy oauth_token) && truthy signed_request && truthy app_secret
  then
    sr ← call_parse_signed_request signed_request app_secret;
    mret (mkClient (default PNone (sr !! "oauth_token")))
  else
    mret (mkClient oauth_token).

Definition _parse (data : string) : result pyval :=
  match json_loads data with
  | None => Ok (PStr data)
  | Some data =>
      match data with
      | PBool _ => Ok data
      | PDict d =>
          if bool_decide (is_Some (d !! "error")) then
            error ← getitem data "error";
            message ← getitem error "message";
            Raise (Error message)
          else
            data ← (if bool_decide (is_Some (d !! "data"))
                    then getitem data "data" else Ok data);
            Ok data
      | _ => Ok PNone
      end
  end.

(** [data] refers to the dictionary the caller passed. *)
Definition _query (self : client) (method path : string) (data : ref)
    : M pyval :=
  d ← load data;
  store data (flatten_lists d);;
  (if truthy (oauth_token self)
   then d ← load data;
        store data (<["access_token" := oauth_token self]> d)
   else mret ());;
  let url := "https://graph.facebook.com/" ++ path in
  content ←
    (if bool_decide (method ∈ ["GET"; "DELETE"]) then
       let url_p := urlparse url in
       let url_params := parse_qs (query url_p) in
       d ← load data;
       let url_params := d ∪ url_params in
       let url_p := _replace_query url_p (urlencode url_params) in
       let url := geturl url_p in
       request_content method url None url_params
     else
       d ← load data;
       request_content method url (Some d) d);
  lift (_parse content).

Definition get (self : client) (path : string) (options : dict) : M pyval :=
  options ← new_dict options;
  response ← _query self "GET" path options;
  if is_False response
  then raise (Error (PStr ("Could not get " ++ dquote ++ path ++ dquote ++ ".")))
  else mret response.

Definition post (self : client) (path : string) (data : dict) : M pyval :=
  data ← new_dict data;
  response ← _query self "POST" path data;
  if is_False response
  then raise (Error (PStr ("Could not post to " ++ dquote ++ path ++ dquote)))
  else mret response.

Definition delete (self : client) (path : string) : M pyval :=
  response ← _query self "DELETE" path QueryDefault;
  if is_False response
  then raise (Error (PStr ("Could not delete " ++ dquote ++ path ++ dquote)))
  else mret response.

Definition SUPPORTED_TYPES : list string :=
  ["post"; "user"; "page"; "event"; "group"; "place"; "checkin"].

Definition search (self : client) (term type : string) (options : dict)
    : M pyval :=
  options ← new_dict options;
  if bool_decide (type ∉ SUPPORTED_TYPES) then
    raise (ValueError
      ("Unsupported type " ++ dquote ++ type ++ dquote
       ++ ". Supported types are " ++ String.concat ", " SUPPORTED_TYPES))
  else
    o ← load options;
    options ← new_dict (o ∪ {["q" := PStr term; "type" := PStr type]});
    response ← _query self "GET" "search" options;
    mret response.

End GraphAPI.
End GraphAPI.

(** ** Vocabulary of the statements *)

(** What the loop of [_query] leaves in place of [value]. *)
Definition flattened (value : pyval) : pyval :=
  if is_string_list value then join_commas value else value.

(** The contents of the dictionary [data] once [_query] has run its loop
    and its [data.update]: what it rewrites [data] to. *)
Definition prepared (self : client) (data : dict) : dict :=
  let data := flatten_lists data in
  if truthy (oauth_token self)
  then <["access_token" := oauth_token self]> data
  else data.

(** A reference that points into the state. *)
Definition valid (s : state) (r : ref) : Prop :=
  match r with
  | QueryDefault => True
  | Allocated n => n < length (heap s)
  end.

Section Vocabulary.
Context {ext : Externals}.

(** The parameters found in the query string of the URL of [path]. *)
Definition path_params (path : string) : dict :=
  parse_qs (query (urlparse ("https://graph.facebook.com/" ++ path))).

(** The request [_query] hands to the transport when [data] holds [d]
    after the preparation. *)
Definition built_request (method path : string) (d : dict) : request :=
  let url := "https://graph.facebook.com/" ++ path in
  if bool_decide (method ∈ ["GET"; "DELETE"]) then
    let url_params := d ∪ path_params path in
    mkRequest method
      (geturl (_replace_query (urlparse url) (urlencode url_params)))
      None url_params
  else mkRequest method url (Some d) d.

(** The requests that running [c] from [s] adds to the record. *)
Definition issues {A : Type} (c : M A) (s : state) (rs : list request) : Prop :=
  sent (c s).2 = (sent s ++ rs)%list.

(** The normalised response to the request [r] issued from [s]: what
    [_parse] makes of the body the transport answers with. *)
Definition normalized_response (s : state) (r : request) : result pyval :=
  requests_request (length (sent s)) (sent_method r) (sent_url r) (sent_body r)
    ≫= GraphAPI._parse.

(** The outcome of running [c] from [s]. *)
Definition outcome {A : Type} (c : M A) (s : state) : result A := (c s).1.

(** The request [r] carries its parameters in the query string of the URL
    of [path], as [urlencode] writes them, and has no body. *)
Definition in_query_string (path : string) (r : request) : Prop :=
  sent_body r = None
  ∧ sent_url r
    = geturl (_replace_query (urlparse ("https://graph.facebook.com/" ++ path))
                (urlencode (sent_params r))).

(** The request [r] carries its parameters as its body and goes to the
    URL of [path] as it is. *)
Definition in_body (path : string) (r : request) : Prop :=
  sent_body r = Some (sent_params r)
  ∧ sent_url r = "https://graph.facebook.com/" ++ path.

(** What the transport receives of [r]: the method, and the parameters
    in the place that goes with the method. *)
Definition on_the_wire (method path : string) (r : request) : Prop :=
  sent_method r = method
  ∧ if bool_decide (method ∈ ["GET"; "DELETE"])
    then in_query_string path r
    else in_body path r.

End Vocabulary.

(** ** Sequences of calls *)

Section Calls.
Context {ext : Externals}.

(** The body the transport answers the request [r] issued from [s] with,
    or the exception it raises. *)
Definition answer (s : state) (r : request) : result string :=
  requests_request (length (sent s)) (sent_method r) (sent_url r) (sent_body r).

(** One use of the class: a construction or a call of one of its verbs. *)
Inductive call : Type :=
  | CallInit (oauth_token signed_request app_secret : pyval)
  | CallGet (self : client) (path : string) (options : dict)
  | CallPost (self : client) (path : string) (data : dict)
  | CallDelete (self : client) (path : string)
  | CallSearch (self : client) (term type : string) (options : dict).

(** The state a call leaves behind, whatever its outcome. *)
Definition after_call (c : call) (s : state) : state :=
  match c with
  | CallInit oauth_token signed_request app_secret =>
      (GraphAPI.__init__ oauth_token signed_request app_secret s).2
  | CallGet self path options => (GraphAPI.get self path options s).2
  | CallPost self path data => (GraphAPI.post self path data s).2
  | CallDelete self path => (GraphAPI.delete self path s).2
  | CallSearch self term type options =>
      (GraphAPI.search self term type options s).2
  end.

(** The state after the calls [cs], made in that order. *)
Definition after_calls (cs : list call) (s : state) : state :=
  foldl (λ s c, after_call c s) s cs.

End Calls.

(** ** Stand-ins for the collaborators

    Executable versions of the imported functions, used where a statement
    is evaluated on concrete inputs. They follow the Python 2 library
    functions on the values of [pyval]: bodies and URLs are ASCII text,
    [PStr] is rendered as a [str], and dictionaries are walked in the
    order of [map_to_list] where Python walks them in hash order. *)
Module Sample.

Local Open Scope nat_scope.

(** [quoted s] is [s] between double quotes. *)
Definition quoted (s : string) : string := dquote ++ s ++ dquote.

Definition body_error_text : string :=
  "{" ++ quoted "error" ++ ": " ++ quoted "x" ++ "}".
Definition body_error_message : string :=
  "{" ++ quoted "error" ++ ": {" ++ quoted "message" ++ ": "
      ++ quoted "bad token" ++ "}}".
Definition body_data_paging : string :=
  "{" ++ quoted "data" ++ ": [1, 2, 3], " ++ quoted "paging" ++ ": {}}".
Definition body_object : string :=
  "{" ++ quoted "id" ++ ": " ++ quoted "4" ++ "}".
Definition body_data_false : string := "{" ++ quoted "data" ++ ": false}".
Definition body_list : string := "[1, 2, 3]".

Definition one_two_three : pyval := PList [PInt 1; PInt 2; PInt 3].

(** *** Characters *)

Definition code (c : ascii) : nat := nat_of_ascii c.

Definition between (lo hi : nat) (c : ascii) : bool :=
  (lo <=? code c) && (code c <=? hi).

Definition is_digit (c : ascii) : bool := between 48 57 c.

Definition is_letter (c : ascii) : bool := between 65 90 c || between 97 122 c.

Definition hex_value (c : ascii) : option nat :=
  if is_digit c then Some (code c - 48)
  else if between 65 70 c then Some (code c - 55)
  else if between 97 102 c then Some (code c - 87)
  else None.

Definition hex_char (upper : bool) (n : nat) : ascii :=
  ascii_of_nat (if n <? 10 then 48 + n else (if upper then 55 else 87) + n).

(** The two hexadecimal digits of the code of [c]. *)
Definition hex_pair (upper : bool) (c : ascii) : string :=
  String (hex_char upper (code c / 16))
    (String (hex_char upper (code c mod 16)) EmptyString).

Definition starts_with (prefix s : string) : bool :=
  String.eqb (String.substring 0 (String.length prefix) s) prefix.

Definition drop_string (n : nat) (s : string) : string :=
  String.substring n (String.length s - n) s.

(** *** [json.loads] *)

Definition is_whitespace (c : ascii) : bool :=
  (code c =? 32) || (code c =? 9) || (code c =? 10) || (code c =? 13).

Fixpoint skip_whitespace (s : string) : string :=
  match s with
  | String c rest => if is_whitespace c then skip_whitespace rest else s
  | EmptyString => s
  end.

(** The UTF-8 bytes of the code point [cp]. *)
Definition utf8 (cp : N) : string :=
  foldr (λ n s, String (ascii_of_N n) s) EmptyString
    (if cp <? 128 then [cp]
     else if cp <? 2048 then [192 + cp / 64; 128 + cp mod 64]
     else if cp <? 65536
       then [224 + cp / 4096; 128 + (cp / 64) mod 64; 128 + cp mod 64]
       else [240 + cp / 262144; 128 + (cp / 4096) mod 64;
             128 + (cp / 64) mod 64; 128 + cp mod 64])%N.

(** Four hexadecimal digits at the head of [s]. *)
Definition hex4 (s : string) : option (N * string) :=
  match s with
  | String a (String b (String c (String d rest))) =>
      match hex_value a, hex_value b, hex_value c, hex_value d with
      | Some a, Some b, Some c, Some d =>
          Some ((4096 * N.of_nat a + 256 * N.of_nat b
                 + 16 * N.of_nat c + N.of_nat d)%N, rest)
      | _, _, _, _ => None
      end
  | _ => None
  end.

(** What follows [\u]: one code point, or a surrogate pair. *)
Definition unicode_escape (s : string) : option (string * string) :=
  match hex4 s with
  | Some (hi, rest) =>
      if ((55296 <=? hi) && (hi <=? 56319))%N && starts_with "\u" rest then
        match hex4 (drop_string 2 rest) with
        | Some (lo, rest') =>
            if ((56320 <=? lo) && (lo <=? 57343))%N
            then Some (utf8 (65536 + (hi - 55296) * 1024 + (lo - 56320))%N, rest')
            else Some (utf8 hi, rest)
        | None => Some (utf8 hi, rest)
        end
      else Some (utf8 hi, rest)
  | None => None
  end.

Definition simple_escape (c : ascii) : option ascii :=
  if (code c =? 34) || (code c =? 92) || (code c =? 47) then Some c
  else if code c =? 98 then Some (ascii_of_nat 8)
  else if code c =? 102 then Some (ascii_of_nat 12)
  else if code c =? 110 then Some (ascii_of_nat 10)
  else if code c =? 114 then Some (ascii_of_nat 13)
  else if code c =? 116 then Some (ascii_of_nat 9)
  else None.

(** The string that ends at the first double quote of [s] that is not
    escaped, and what follows it. *)
Fixpoint scan_string (fuel : nat) (s : string) : option (string * string) :=
  match fuel, s with
  | S fuel, String c rest =>
      if code c =? 34 then Some (EmptyString, rest)
      else if code c =? 92 then
        match rest with
        | String e rest' =>
            match simple_escape e with
            | Some ch =>
                '(text, after) ← scan_string fuel rest';
                Some (String ch text, after)
            | None =>
                if code e =? 117 then
                  '(bytes, rest'') ← unicode_escape rest';
                  '(text, after) ← scan_string fuel rest'';
                  Some (bytes ++ text, after)
                else None
            end
        | EmptyString => None
        end
      else if code c <? 32 then None
      else '(text, after) ← scan_string fuel rest;
           Some (String c text, after)
  | _, _ => None
  end.

Fixpoint digits (s : string) (acc : Z) : Z * string :=
  match s with
  | String c rest =>
      if is_digit c then digits rest (10 * acc + Z.of_nat (code c - 48))%Z
      else (acc, s)
  | EmptyString => (acc, s)
  end.

(** An integer: an optional minus sign, then [0] or digits without a
    leading zero. A fraction or an exponent makes the number a float,
    which [pyval] does not have: such a number is not decoded. *)
Definition scan_integer (s : string) : option (Z * string) :=
  let '(negative, s) :=
    match s with
    | String c rest => if code c =? 45 then (true, rest) else (false, s)
    | EmptyString => (false, s)
    end in
  match s with
  | String c rest =>
      if is_digit c then
        let '(n, rest) :=
          if code c =? 48 then (0%Z, rest)
          else digits rest (Z.of_nat (code c - 48)) in
        let float :=
          match rest with
          | String c' _ => (code c' =? 46) || (code c' =? 101) || (code c' =? 69)
          | EmptyString => false
          end in
        if float then None else Some (if negative then (- n)%Z else n, rest)
      else None
  | EmptyString => None
  end.

(** The elements of an array after the first bracket, [value] reading
    one element. *)
Fixpoint scan_elements (value : string → option (pyval * string))
    (fuel : nat) (s : string) (acc : list pyval) : option (pyval * string) :=
  match fuel with
  | S fuel =>
      '(v, rest) ← value s;
      match skip_whitespace rest with
      | String c rest =>
          if code c =? 44 then scan_elements value fuel rest (v :: acc)
          else if code c =? 93 then Some (PList (reverse (v :: acc)), rest)
          else None
      | EmptyString => None
      end
  | 0 => None
  end.

(** The members of an object after the first brace; a name that occurs
    twice keeps its last value. *)
Fixpoint scan_members (value : string → option (pyval * string))
    (fuel : nat) (s : string) (acc : dict) : option (pyval * string) :=
  match fuel with
  | S fuel =>
      match skip_whitespace s with
      | String c rest =>
          if code c =? 34 then
            '(name, rest) ← scan_string (String.length rest) rest;
            match skip_whitespace rest with
            | String c rest =>
                if code c =? 58 then
                  '(v, rest) ← value rest;
                  match skip_whitespace rest with
                  | String c rest =>
                      if code c =? 44
                      then scan_members value fuel rest (<[name := v]> acc)
                      else if code c =? 125
                      then Some (PDict (<[name := v]> acc), rest)
                      else None
                  | EmptyString => None
                  end
                else None
            | EmptyString => None
            end
          else None
      | EmptyString => None
      end
  | 0 => None
  end.

(** One JSON value at the head of [s], after white space. *)
Fixpoint scan_value (fuel : nat) (s : string) : option (pyval * string) :=
  match fuel with
  | S fuel =>
      match skip_whitespace s with
      | String c rest as s =>
          if code c =? 123 then
            match skip_whitespace rest with
            | String c' rest' =>
                if code c' =? 125 then Some (PDict ∅, rest')
                else scan_members (scan_value fuel) (String.length rest) rest ∅
            | EmptyString => None
            end
          else if code c =? 91 then
            match skip_whitespace rest with
            | String c' rest' =>
                if code c' =? 93 then Some (PList [], rest')
                else scan_elements (scan_value fuel) (String.length rest) rest []
            | EmptyString => None
            end
          else if code c =? 34 then
            '(text, rest) ← scan_string (String.length rest) rest;
            Some (PStr text, rest)
          else if starts_with "true" s then Some (PBool true, drop_string 4 s)
          else if starts_with "false" s then Some (PBool false, drop_string 5 s)
          else if starts_with "null" s then Some (PNone, drop_string 4 s)
          else '(n, rest) ← scan_integer s; Some (PInt n, rest)
      | EmptyString => None
      end
  | 0 => None
  end.

(** The decoder: one value, with nothing but white space after it.
    [None] stands for [ValueError]. Numbers with a fraction or an
    exponent and the names [NaN] and [Infinity] decode to floats in
    Python and are outside [pyval]: they are not decoded here. *)
Definition json_loads (body : string) : option pyval :=
  '(v, rest) ← scan_value (S (String.length body)) body;
  match skip_whitespace rest with
  | EmptyString => Some v
  | String _ _ => None
  end.

(** *** [urlparse.urlparse] and [geturl] *)

(** [split_at c s]: the part of [s] before the first [c] and, when there
    is one, the part after it. *)
Fixpoint split_at (c : ascii) (s : string) : string * option string :=
  match s with
  | EmptyString => (EmptyString, None)
  | String a rest =>
      if Ascii.eqb a c then (EmptyString, Some rest)
      else let '(before, after) := split_at c rest in (String a before, after)
  end.

Definition urlparse (url : string) : ParseResult :=
  let '(address, q) := split_at "?" (drop_string 8 url) in
  let '(host, p) := split_at "/" address in
  {| scheme := "https"; netloc := host;
     path := match p with Some p => "/" ++ p | None => EmptyString end;
     params := EmptyString; query := default EmptyString q;
     fragment := EmptyString |}.

Definition geturl (url_p : ParseResult) : string :=
  scheme url_p ++ "://" ++ netloc url_p ++ path url_p
    ++ (if String.eqb (query url_p) EmptyString then EmptyString
        else "?" ++ query url_p).

(** *** [urlparse.parse_qs] *)

(** All the pieces of [s] between the characters that [separates]. *)
Fixpoint pieces (separates : ascii → bool) (s : string) : list string :=
  match s with
  | EmptyString => [EmptyString]
  | String a rest =>
      if separates a then EmptyString :: pieces separates rest
      else match pieces separates rest with
           | p :: ps => String a p :: ps
           | [] => [String a EmptyString]
           end
  end.

(** [urllib.unquote] after [replace('+', ' ')]: a plus sign is a space,
    [%XX] is the character with that code, any other [%] stays. *)
Fixpoint unquote_plus (s : string) : string :=
  match s with
  | EmptyString => EmptyString
  | String c rest =>
      if code c =? 43 then String " " (unquote_plus rest)
      else if code c =? 37 then
        match rest with
        | String h (String l rest') =>
            match hex_value h, hex_value l with
            | Some a, Some b => String (ascii_of_nat (16 * a + b)) (unquote_plus rest')
            | _, _ => String c (unquote_plus rest)
            end
        | _ => String c (unquote_plus rest)
        end
      else String c (unquote_plus rest)
  end.

(** [name=value] pairs separated by [&] or [;]; the values of a name are
    collected in a list, pairs without [=] or with an empty value are
    dropped. *)
Definition add_pair (pair : string) (acc : dict) : dict :=
  match split_at "=" pair with
  | (name, Some value) =>
      if String.eqb value EmptyString then acc
      else
        let name := unquote_plus name in
        let value := unquote_plus value in
        match acc !! name with
        | Some (PList values) => <[name := PList (PStr value :: values)]> acc
        | _ => <[name := PList [PStr value]]> acc
        end
  | (_, None) => acc
  end.

Definition parse_qs (qs : string) : dict :=
  foldr add_pair ∅ (pieces (λ c, (code c =? 38) || (code c =? 59)) qs).

(** *** [urllib.urlencode] *)

(** [urllib.quote_plus]: letters, digits, [_], [.] and [-] stay, a space
    becomes [+], every other character becomes [%XX]. *)
Fixpoint quote_plus (s : string) : string :=
  match s with
  | EmptyString => EmptyString
  | String c rest =>
      (if is_letter c || is_digit c
          || (code c =? 95) || (code c =? 46) || (code c =? 45)
       then String c EmptyString
       else if code c =? 32 then "+"
       else "%" ++ hex_pair true c)
      ++ quote_plus rest
  end.

Fixpoint contains (c : nat) (s : string) : bool :=
  match s with
  | EmptyString => false
  | String a rest => (code a =? c) || contains c rest
  end.

Fixpoint escaped (delimiter : nat) (s : string) : string :=
  match s with
  | EmptyString => EmptyString
  | String c rest =>
      (if (code c =? delimiter) || (code c =? 92)
       then String "\" (String c EmptyString)
       else if code c =? 9 then "\t"
       else if code c =? 10 then "\n"
       else if code c =? 13 then "\r"
       else if (code c <? 32) || (127 <=? code c) then "\x" ++ hex_pair false c
       else String c EmptyString)
      ++ escaped delimiter rest
  end.

(** [repr] of a [str]: between single quotes, or between double quotes
    when it holds a single quote and no double quote. *)
Definition repr_str (s : string) : string :=
  let delimiter := if contains 39 s && negb (contains 34 s) then 34 else 39 in
  String (ascii_of_nat delimiter) EmptyString
    ++ escaped delimiter s
    ++ String (ascii_of_nat delimiter) EmptyString.

Definition decimal (n : Z) : string := NilZero.string_of_int (Z.to_int n).

(** [repr]. An integer outside the 64 bit range is a [long] and ends in
    [L]. *)
Fixpoint repr (v : pyval) : string :=
  match v with
  | PNone => "None"
  | PBool b => if b then "True" else "False"
  | PInt n =>
      if ((- 2 ^ 63 <=? n) && (n <? 2 ^ 63))%Z then decimal n
      else decimal n ++ "L"
  | PStr s => repr_str s
  | PList l => "[" ++ String.concat ", " (map repr l) ++ "]"
  | PTuple l =>
      match l with
      | [x] => "(" ++ repr x ++ ",)"
      | _ => "(" ++ String.concat ", " (map repr l) ++ ")"
      end
  | PDict d =>
      "{" ++ String.concat ", "
               ((λ kv, repr_str (fst kv) ++ ": " ++ snd kv)
                  <$> map_to_list (repr <$> d))
          ++ "}"
  end.

(** [str] *)
Definition str (v : pyval) : string :=
  match v with
  | PStr s => s
  | PInt n => decimal n
  | _ => repr v
  end.

(** [urlencode(query)] without [doseq]: [quote_plus(str(k)) + '=' +
    quote_plus(str(v))] for every item, joined by [&]. *)
Definition urlencode (d : dict) : string :=
  String.concat "&"
    ((λ kv, quote_plus (fst kv) ++ "=" ++ quote_plus (str (snd kv)))
       <$> map_to_list d).

(** *** [parse_signed_request] *)

(** The parser accepts one blob under one secret. *)
Definition parse_signed_request (signed_request app_secret : pyval)
    : result dict :=
  match signed_request, app_secret with
  | PStr blob, PStr secret =>
      if String.eqb blob "signed.request" && String.eqb secret "secret"
      then Ok {["oauth_token" := PStr "token-of-the-signed-request";
                "user_id" := PStr "4"]}
      else Raise (ValueError "Signed request malformed")
  | _, _ => Raise TypeError
  end.

(** The collaborators with a transport that answers every request with
    [response]. *)
Definition externals (response : result string) : Externals :=
  Build_Externals json_loads (λ _ _ _ _, response) urlparse geturl
    parse_qs urlencode parse_signed_request.

End Sample.

(** The collaborators of [Sample] with a decoder that reads every body
    as the value [v] and a transport that answers with [response]. *)
Definition decoding_to (v : pyval) (response : result string) : Externals :=
  Build_Externals (λ _, Some v) (λ _ _ _ _, response) Sample.urlparse
    Sample.geturl Sample.parse_qs Sample.urlencode Sample.parse_signed_request.

Example sample_urlparse :
  Sample.urlparse "https://graph.facebook.com/me?a=1"
  = mkParseResult "https" "graph.facebook.com" "/me" EmptyString "a=1" EmptyString.
Proof. reflexivity. Qed.

Example sample_parse_qs :
  Sample.parse_qs "a=1&b=x" = {["a" := PList [PStr "1"]; "b" := PList [PStr "x"]]}.
Proof. vm_compute. reflexivity. Qed.

Example sample_json_loads :
  Sample.json_loads "null" = Some PNone
  ∧ Sample.json_loads " 5 " = Some (PInt 5)
  ∧ Sample.json_loads "-12" = Some (PInt (-12))
  ∧ Sample.json_loads "[1, [true, null], []]"
    = Some (PList [PInt 1; PList [PBool true; PNone]; PList []])
  ∧ Sample.json_loads Sample.body_data_paging
    = Some (PDict {["data" := Sample.one_two_three; "paging" := PDict ∅]})
  ∧ Sample.json_loads (Sample.quoted "a\/\u0041") = Some (PStr "a/A")
  ∧ Sample.json_loads "plain text" = None
  ∧ Sample.json_loads "[1,]" = None
  ∧ Sample.json_loads "01" = None
  ∧ Sample.json_loads EmptyString = None.
Proof. vm_compute. repeat split. Qed.

Example sample_urlencode :
  Sample.urlencode {["a" := PList [PStr "1"]]} = "a=%5B%271%27%5D"
  ∧ Sample.urlencode {["ids" := PStr "x,y"]} = "ids=x%2Cy"
  ∧ Sample.urlencode {["q" := PStr "a b&c"]} = "q=a+b%26c"
  ∧ Sample.urlencode {["limit" := PInt 5]} = "limit=5"
  ∧ Sample.urlencode {["ids" := PTuple [PStr "x"; PStr "y"]]}
    = "ids=%28%27x%27%2C+%27y%27%29"
  ∧ Sample.urlencode ∅ = EmptyString.
Proof. vm_compute. repeat split. Qed.

Example sample_parse_qs_unquotes :
  Sample.parse_qs "a=%5B%271%27%5D&b=x+y;c=&d"
  = {["a" := PList [PStr "['1']"]; "b" := PList [PStr "x y"]]}.
Proof. vm_compute. reflexivity. Qed.

(** * Properties *)

(** ** The loop over the parameters *)

Lemma flatten_fold_lookup (d0 d : dict) (k : string) :
  map_fold flatten_item d0 d !! k
  = match d !! k with
    | Some v => if is_string_list v then Some (join_commas v) else d0 !! k
    | None => d0 !! k
    end.
Proof.
  revert k.
  apply (map_fold_weak_ind
           (λ (r m : dict), ∀ k, r !! k = match m !! k with
              | Some v => if is_string_list v then Some (join_commas v) else d0 !! k
              | None => d0 !! k end)).
  - intros k. by rewrite lookup_empty.
  - intros i x m r Hi IH k. unfold flatten_item.
    destruct (decide (i = k)) as [->|Hne].
    + rewrite lookup_insert_eq. destruct (is_string_list x) eqn:Hx.
      * by rewrite lookup_insert_eq.
      * rewrite IH, Hi. done.
    + rewrite (lookup_insert_ne m i k) by done.
      destruct (is_string_list x); [rewrite lookup_insert_ne by done|]; apply IH.
Qed.

Lemma flatten_lists_lookup (d : dict) (k : string) :
  flatten_lists d !! k = flattened <$> d !! k.
Proof.
  unfold flatten_lists. rewrite flatten_fold_lookup.
  unfold flattened. destruct (d !! k) as [v|] eqn:Hk; simpl; [|done].
  by destruct (is_string_list v).
Qed.

Lemma flatten_lists_fmap (d : dict) : flatten_lists d = flattened <$> d.
Proof. apply map_eq. intros k. by rewrite flatten_lists_lookup, lookup_fmap. Qed.

(** ** References *)

Lemma deref_assign (s : state) (r : ref) (d : dict) :
  valid s r → deref (assign r d s) r = d.
Proof.
  destruct r as [|n]; simpl; [done|]. intros Hn.
  by rewrite list_lookup_insert_eq.
Qed.

Lemma assign_assign (s : state) (r : ref) (d d' : dict) :
  assign r d' (assign r d s) = assign r d' s.
Proof.
  destruct r as [|n]; simpl; [done|]. by rewrite list_insert_insert_eq.
Qed.

Lemma sent_assign (s : state) (r : ref) (d : dict) :
  sent (assign r d s) = sent s.
Proof. by destruct r. Qed.

Lemma valid_assign (s : state) (r r' : ref) (d : dict) :
  valid s r → valid (assign r' d s) r.
Proof.
  destruct r as [|n], r' as [|n']; simpl; try done.
  by rewrite length_insert.
Qed.

Lemma valid_allocate (s : state) (d : dict) :
  valid (allocate d s) (Allocated (length (heap s))).
Proof. simpl. rewrite length_app. simpl. lia. Qed.

Lemma deref_allocate (s : state) (d : dict) :
  deref (allocate d s) (Allocated (length (heap s))) = d.
Proof.
  simpl. rewrite lookup_app_r by lia. by rewrite Nat.sub_diag.
Qed.

Section Properties.
Context {ext : Externals}.

(** ** The shared request path, in one equation *)

Lemma _query_run (self : client) (method path : string) (data : ref) (s : state) :
  valid s data →
  GraphAPI._query self method path data s
  = let d := prepared self (deref s data) in
    let r := built_request method path d in
    (normalized_response s r, record_request r (assign data d s)).
Proof.
  intros Hv. unfold GraphAPI._query, prepared, built_request, path_params.
  unfold normalized_response.
  unfold mbind, M_bind, load, store, mret, M_ret, lift, GraphAPI.request_content.
  destruct (truthy (oauth_token self));
    destruct (bool_decide (method ∈ ["GET"; "DELETE"])); simpl;
    rewrite ?sent_assign, ?deref_assign, ?assign_assign
      by auto using valid_assign;
    match goal with |- context [requests_request ?n ?m ?u ?b] =>
      destruct (requests_request n m u b) end; reflexivity.
Qed.

(** ** The verbs, in one equation each *)

(** What [get], [post] and [delete] make of the result of [_query]. *)
Lemma checked_run (message : string) (c : M pyval) (s : state) :
  (response ← c;
   if is_False response then raise (Error (PStr message)) else mret response) s
  = (match (c s).1 with
     | Ok v => if is_False v then Raise (Error (PStr message)) else Ok v
     | Raise e => Raise e
     end, (c s).2).
Proof.
  unfold mbind, M_bind. destruct (c s) as [[v|e] s']; simpl; [|done].
  by destruct (is_False v).
Qed.

Lemma _query_fresh_run (self : client) (method path : string) (d : dict) (s : state) :
  GraphAPI._query self method path (Allocated (length (heap s))) (allocate d s)
  = let r := built_request method path (prepared self d) in
    (normalized_response s r,
     record_request r (allocate (prepared self d) s)).
Proof.
  rewrite _query_run by apply valid_allocate.
  rewrite deref_allocate. simpl. f_equal.
  unfold record_request, allocate; simpl. f_equal.
  rewrite insert_app_r_alt by lia. by rewrite Nat.sub_diag.
Qed.

Lemma get_run (self : client) (path : string) (options : dict) (s : state) :
  GraphAPI.get self path options s
  = let r := built_request "GET" path (prepared self options) in
    (match normalized_response s r with
     | Ok v => if is_False v
               then Raise (Error (PStr ("Could not get " ++ dquote ++ path ++ dquote ++ ".")))
               else Ok v
     | Raise e => Raise e
     end,
     record_request r (allocate (prepared self options) s)).
Proof.
  unfold GraphAPI.get. unfold mbind at 1, M_bind at 1, new_dict.
  rewrite checked_run, _query_fresh_run. done.
Qed.

Lemma post_run (self : client) (path : string) (data : dict) (s : state) :
  GraphAPI.post self path data s
  = let r := built_request "POST" path (prepared self data) in
    (match normalized_response s r with
     | Ok v => if is_False v
               then Raise (Error (PStr ("Could not post to " ++ dquote ++ path ++ dquote)))
               else Ok v
     | Raise e => Raise e
     end,
     record_request r (allocate (prepared self data) s)).
Proof.
  unfold GraphAPI.post. unfold mbind at 1, M_bind at 1, new_dict.
  rewrite checked_run, _query_fresh_run. done.
Qed.

Lemma delete_run (self : client) (path : string) (s : state) :
  GraphAPI.delete self path s
  = let d := prepared self (query_default s) in
    let r := built_request "DELETE" path d in
    (match normalized_response s r with
     | Ok v => if is_False v
               then Raise (Error (PStr ("Could not delete " ++ dquote ++ path ++ dquote)))
               else Ok v
     | Raise e => Raise e
     end,
     record_request r (assign QueryDefault d s)).
Proof.
  unfold GraphAPI.delete. rewrite checked_run, _query_run by done. done.
Qed.

Lemma search_run (self : client) (term type : string) (options : dict) (s : state) :
  GraphAPI.search self term type options s
  = if bool_decide (type ∉ GraphAPI.SUPPORTED_TYPES) then
      (Raise (ValueError
         ("Unsupported type " ++ dquote ++ type ++ dquote
          ++ ". Supported types are "
          ++ String.concat ", " GraphAPI.SUPPORTED_TYPES)),
       allocate options s)
    else
      let d := prepared self (options ∪ {["q" := PStr term; "type" := PStr type]}) in
      let r := built_request "GET" "search" d in
      (normalized_response s r,
       record_request r (allocate d (allocate options s))).
Proof.
  unfold GraphAPI.search. unfold mbind at 1, M_bind at 1, new_dict.
  destruct (bool_decide (type ∉ GraphAPI.SUPPORTED_TYPES)); [done|].
  unfold mbind at 1, M_bind at 1, load. rewrite deref_allocate.
  unfold mbind at 1, M_bind at 1.
  unfold mbind, M_bind. rewrite _query_fresh_run. simpl.
  unfold normalized_response; simpl.
  by destruct (_ ≫= GraphAPI._parse).
Qed.

(** ** What a request transmits *)

Lemma sent_params_built (method path : string) (d : dict) :
  sent_params (built_request method path d)
  = if bool_decide (method ∈ ["GET"; "DELETE"]) then d ∪ path_params path else d.
Proof. unfold built_request. by destruct (bool_decide _). Qed.

Lemma built_request_lookup (method path : string) (d : dict) (k : string) (v : pyval) :
  d !! k = Some v → sent_params (built_request method path d) !! k = Some v.
Proof.
  intros Hk. rewrite sent_params_built. destruct (bool_decide _); [|done].
  by apply lookup_union_Some_l.
Qed.

Lemma prepared_access_token (self : client) (d : dict) :
  truthy (oauth_token self) = true →
  prepared self d !! "access_token" = Some (oauth_token self).
Proof. intros Ht. unfold prepared. rewrite Ht. apply lookup_insert_eq. Qed.

Lemma prepared_unauthenticated (self : client) (d : dict) :
  truthy (oauth_token self) = false → prepared self d = flattened <$> d.
Proof. intros Ht. unfold prepared. rewrite Ht. apply flatten_lists_fmap. Qed.

Lemma prepared_lookup_ne (self : client) (d : dict) (k : string) :
  k ≠ "access_token" → prepared self d !! k = flattened <$> d !! k.
Proof.
  intros Hk. unfold prepared. destruct (truthy _).
  - rewrite lookup_insert_ne by done. apply flatten_lists_lookup.
  - apply flatten_lists_lookup.
Qed.

(** ** The requests each verb issues *)

Lemma get_issues (self : client) (path : string) (options : dict) (s : state) :
  issues (GraphAPI.get self path options) s
    [built_request "GET" path (prepared self options)].
Proof. unfold issues. by rewrite get_run. Qed.

Lemma post_issues (self : client) (path : string) (data : dict) (s : state) :
  issues (GraphAPI.post self path data) s
    [built_request "POST" path (prepared self data)].
Proof. unfold issues. by rewrite post_run. Qed.

Lemma delete_issues (self : client) (path : string) (s : state) :
  issues (GraphAPI.delete self path) s
    [built_request "DELETE" path (prepared self (query_default s))].
Proof. unfold issues. by rewrite delete_run. Qed.

Lemma search_issues (self : client) (term type : string) (options : dict) (s : state) :
  type ∈ GraphAPI.SUPPORTED_TYPES →
  issues (GraphAPI.search self term type options) s
    [built_request "GET" "search"
       (prepared self (options ∪ {["q" := PStr term; "type" := PStr type]}))].
Proof.
  intros Ht. unfold issues. rewrite search_run.
  rewrite bool_decide_eq_false_2; [done|]. by intros Hn.
Qed.

Lemma search_rejects (self : client) (term type : string) (options : dict) (s : state) :
  type ∉ GraphAPI.SUPPORTED_TYPES →
  issues (GraphAPI.search self term type options) s []
  ∧ ∃ message, outcome (GraphAPI.search self term type options) s
               = Raise (ValueError message).
Proof.
  intros Ht. unfold issues, outcome. rewrite search_run.
  rewrite bool_decide_eq_true_2 by done. simpl.
  split; [by rewrite app_nil_r | eauto].
Qed.

Lemma init_explicit (oauth_token signed_request app_secret : pyval) (s : state) :
  truthy oauth_token = true →
  GraphAPI.__init__ oauth_token signed_request app_secret s
  = (Ok (mkClient oauth_token), s).
Proof. intros Ht. unfold GraphAPI.__init__. by rewrite Ht. Qed.

Lemma truthy_PStr (t : string) : t ≠ EmptyString → truthy (PStr t) = true.
Proof. intros Ht. simpl. by apply negb_true_iff, String.eqb_neq. Qed.

Lemma built_request_on_the_wire (method path : string) (d : dict) :
  on_the_wire method path (built_request method path d).
Proof.
  unfold on_the_wire, built_request, in_query_string, in_body, path_params.
  by destruct (bool_decide (method ∈ ["GET"; "DELETE"])).
Qed.

Lemma get_on_the_wire (path : string) (d : dict) :
  sent_method (built_request "GET" path d) = "GET"
  ∧ in_query_string path (built_request "GET" path d).
Proof. apply (built_request_on_the_wire "GET"). Qed.

Lemma delete_on_the_wire (path : string) (d : dict) :
  sent_method (built_request "DELETE" path d) = "DELETE"
  ∧ in_query_string path (built_request "DELETE" path d).
Proof. apply (built_request_on_the_wire "DELETE"). Qed.

Lemma post_on_the_wire (path : string) (d : dict) :
  sent_method (built_request "POST" path d) = "POST"
  ∧ in_body path (built_request "POST" path d).
Proof. apply (built_request_on_the_wire "POST"). Qed.

(** ** The claims *)

(** C1. A client constructed with a non-empty token [t] is constructed
    without further ado, and each of its calls to [get], [post],
    [delete] and [search] transmits a parameter mapping in which
    [access_token] is bound to [t], whatever parameters the caller
    supplies, an [access_token] of its own included. The mapping is what
    the transport receives: for [get], [delete] and [search] the URL is
    that of the path with the mapping encoded as its query string, and
    there is no body; for [post] the mapping is the body. [get], [post]
    and [delete] issue exactly one request, [search] one when the type is
    supported and none otherwise. *)
Theorem access_token_on_every_request
    (t : string) (signed_request app_secret : pyval) (s0 : state) :
  t ≠ EmptyString →
  ∃ self : client,
    GraphAPI.__init__ (PStr t) signed_request app_secret s0 = (Ok self, s0)
    ∧ (∀ path options s, ∃ r,
          issues (GraphAPI.get self path options) s [r]
          ∧ sent_method r = "GET"
          ∧ in_query_string path r
          ∧ sent_params r !! "access_token" = Some (PStr t))
    ∧ (∀ path data s, ∃ r,
          issues (GraphAPI.post self path data) s [r]
          ∧ sent_method r = "POST"
          ∧ in_body path r
          ∧ sent_params r !! "access_token" = Some (PStr t))
    ∧ (∀ path s, ∃ r,
          issues (GraphAPI.delete self path) s [r]
          ∧ sent_method r = "DELETE"
          ∧ in_query_string path r
          ∧ sent_params r !! "access_token" = Some (PStr t))
    ∧ (∀ term type options s, ∃ rs,
          issues (GraphAPI.search self term type options) s rs
          ∧ Forall (λ r, sent_method r = "GET"
                         ∧ in_query_string "search" r
                         ∧ sent_params r !! "access_token" = Some (PStr t)) rs
          ∧ (type ∈ GraphAPI.SUPPORTED_TYPES → length rs = 1)).
Proof.
  intros Ht. apply truthy_PStr in Ht.
  exists (mkClient (PStr t)). split; [by apply init_explicit|].
  assert (∀ method path d,
    sent_params (built_request method path (prepared (mkClient (PStr t)) d))
      !! "access_token" = Some (PStr t)) as Htok.
  { intros. apply built_request_lookup.
    by apply (prepared_access_token (mkClient (PStr t))). }
  split; [|split; [|split]].
  - intros path options s. eexists. split; [apply get_issues|].
    split; [apply get_on_the_wire|]. split; [apply get_on_the_wire | apply Htok].
  - intros path data s. eexists. split; [apply post_issues|].
    split; [apply post_on_the_wire|].
    split; [apply post_on_the_wire | apply Htok].
  - intros path s. eexists. split; [apply delete_issues|].
    split; [apply delete_on_the_wire|].
    split; [apply delete_on_the_wire | apply Htok].
  - intros term type options s.
    destruct (decide (type ∈ GraphAPI.SUPPORTED_TYPES)) as [Hin|Hout].
    + eexists. split; [by apply search_issues|].
      split; [|done]. constructor; [|constructor].
      split; [apply get_on_the_wire|].
      split; [apply get_on_the_wire | apply Htok].
    + exists []. split; [by apply search_rejects|].
      split; [constructor | done].
Qed.

(** ** Response normalisation *)

Lemma _parse_dict (body : string) (d : dict) :
  json_loads body = Some (PDict d) →
  GraphAPI._parse body
  = match d !! "error" with
    | Some error => message ← getitem error "message"; Raise (Error message)
    | None => match d !! "data" with
              | Some v => Ok v
              | None => Ok (PDict d)
              end
    end.
Proof.
  intros Hd. unfold GraphAPI._parse. rewrite Hd. simpl.
  destruct (d !! "error") as [error|] eqn:He.
  - rewrite bool_decide_eq_true_2 by eauto. done.
  - rewrite bool_decide_eq_false_2 by (by intros [? ?]).
    destruct (d !! "data") as [v|] eqn:Hv.
    + rewrite bool_decide_eq_true_2 by eauto. done.
    + rewrite bool_decide_eq_false_2 by (by intros [? ?]). done.
Qed.

(** C2, amended. For a body that decodes to a mapping: if the mapping
    has the key [error] and the value there is itself a mapping with a
    key [message], [_parse] raises the API error with the value at
    [error.message] as its message; if it has no key [error] and has the
    key [data], [_parse] returns exactly the value under [data]; if it
    has neither, [_parse] returns the mapping unchanged. *)
Theorem parse_of_a_mapping (body : string) (d : dict) :
  json_loads body = Some (PDict d) →
  (∀ error message,
      d !! "error" = Some (PDict error) → error !! "message" = Some message →
      GraphAPI._parse body = Raise (Error message))
  ∧ (∀ v, d !! "error" = None → d !! "data" = Some v →
      GraphAPI._parse body = Ok v)
  ∧ (d !! "error" = None → d !! "data" = None →
      GraphAPI._parse body = Ok (PDict d)).
Proof.
  intros Hd. rewrite (_parse_dict body d Hd). repeat split.
  - intros error message -> Hm. simpl. by rewrite Hm.
  - by intros v -> ->.
  - by intros -> ->.
Qed.

(** C4, amended. For every response body: if it is not valid JSON,
    [_parse] returns the raw text unchanged and raises nothing; if it
    decodes to a boolean, [_parse] returns that boolean; if it decodes to
    a mapping, then either the mapping has the key [error] and [_parse]
    raises, or it has the key [data] and [_parse] returns the value found
    there, a JSON value of any kind, or [_parse] returns the mapping
    itself. *)
Theorem parse_shapes (body : string) :
  (json_loads body = None → GraphAPI._parse body = Ok (PStr body))
  ∧ (∀ b, json_loads body = Some (PBool b) →
       GraphAPI._parse body = Ok (PBool b))
  ∧ (∀ d, json_loads body = Some (PDict d) →
       (is_Some (d !! "error") ∧ ∃ e, GraphAPI._parse body = Raise e)
       ∨ (d !! "error" = None
          ∧ ∃ v, d !! "data" = Some v ∧ GraphAPI._parse body = Ok v)
       ∨ (d !! "error" = None ∧ d !! "data" = None
          ∧ GraphAPI._parse body = Ok (PDict d))).
Proof.
  repeat split.
  - intros Hb. unfold GraphAPI._parse. by rewrite Hb.
  - intros b Hb. unfold GraphAPI._parse. by rewrite Hb.
  - intros d Hd. rewrite (_parse_dict body d Hd).
    destruct (d !! "error") as [error|] eqn:He.
    + left. split; [eauto|].
      destruct (getitem error "message") as [m|e]; simpl; eauto.
    + right. destruct (d !! "data") as [v|] eqn:Hv; [left|right]; eauto.
Qed.

(** Every other decoded value (a number, a string, a list, null) falls
    through both tests of [_parse], which then returns [None]. *)
Lemma _parse_falls_through (body : string) (v : pyval) :
  json_loads body = Some v →
  (∀ b, v ≠ PBool b) → (∀ d, v ≠ PDict d) →
  GraphAPI._parse body = Ok PNone.
Proof.
  intros Hv Hb Hd. unfold GraphAPI._parse. rewrite Hv.
  destruct v; try done; [by destruct (Hb b) | by destruct (Hd d)].
Qed.

(** ** The check on [False] *)

Lemma issues_inj {A : Type} (c : M A) (s : state) (rs rs' : list request) :
  issues c s rs → issues c s rs' → rs = rs'.
Proof.
  unfold issues. intros -> Heq. by apply app_inv_head in Heq.
Qed.

Local Ltac settle_check run :=
  let Hr := fresh "Hr" in
  unfold outcome; rewrite run; simpl; split; intros Hr; by rewrite Hr.

(** C3. Each of [get], [post] and [delete] issues one request, and when
    the normalised response to it is exactly [False] the call raises the
    API error, with a message that names the path only; when it is
    [True], the call returns [True]. *)
Theorem false_raises_true_returns
    (self : client) (path : string) (params : dict) (s : state) :
  (∃ r, issues (GraphAPI.get self path params) s [r]
        ∧ (normalized_response s r = Ok (PBool false) →
           outcome (GraphAPI.get self path params) s
           = Raise (Error (PStr ("Could not get " ++ dquote ++ path ++ dquote ++ "."))))
        ∧ (normalized_response s r = Ok (PBool true) →
           outcome (GraphAPI.get self path params) s = Ok (PBool true)))
  ∧ (∃ r, issues (GraphAPI.post self path params) s [r]
          ∧ (normalized_response s r = Ok (PBool false) →
             outcome (GraphAPI.post self path params) s
             = Raise (Error (PStr ("Could not post to " ++ dquote ++ path ++ dquote))))
          ∧ (normalized_response s r = Ok (PBool true) →
             outcome (GraphAPI.post self path params) s = Ok (PBool true)))
  ∧ (∃ r, issues (GraphAPI.delete self path) s [r]
          ∧ (normalized_response s r = Ok (PBool false) →
             outcome (GraphAPI.delete self path) s
             = Raise (Error (PStr ("Could not delete " ++ dquote ++ path ++ dquote))))
          ∧ (normalized_response s r = Ok (PBool true) →
             outcome (GraphAPI.delete self path) s = Ok (PBool true))).
Proof.
  split; [|split]; eexists.
  - split; [apply get_issues|]. settle_check get_run.
  - split; [apply post_issues|]. settle_check post_run.
  - split; [apply delete_issues|]. settle_check delete_run.
Qed.

(** C9. When the normalised response to the request of a [search] is
    [False], [search] returns [False]: it hands on what the shared query
    path returns and raises no API error of its own. *)
Theorem search_returns_false
    (self : client) (term type : string) (options : dict) (s : state) (r : request) :
  issues (GraphAPI.search self term type options) s [r] →
  normalized_response s r = Ok (PBool false) →
  outcome (GraphAPI.search self term type options) s = Ok (PBool false).
Proof.
  intros Hi Hr.
  destruct (decide (type ∈ GraphAPI.SUPPORTED_TYPES)) as [Hin|Hout].
  - apply (issues_inj _ _ _ _ (search_issues self term type options s Hin)) in Hi.
    injection Hi as <-. unfold outcome. rewrite search_run.
    rewrite bool_decide_eq_false_2 by (by intros Hn). simpl. exact Hr.
  - destruct (search_rejects self term type options s Hout) as [Hnone _].
    by apply (issues_inj _ _ _ _ Hnone) in Hi.
Qed.

(** ** Validation in [search] *)

Lemma SUPPORTED_TYPES_spec (type : string) :
  type ∈ GraphAPI.SUPPORTED_TYPES ↔
  type = "post" ∨ type = "user" ∨ type = "page" ∨ type = "event"
  ∨ type = "group" ∨ type = "place" ∨ type = "checkin".
Proof.
  unfold GraphAPI.SUPPORTED_TYPES. rewrite !elem_of_cons, elem_of_nil.
  tauto.
Qed.

(** C7. A [search] whose type is none of [post], [user], [page],
    [event], [group], [place], [checkin] raises [ValueError] and issues
    no request. A [search] whose type is one of the seven raises nothing
    of its own: it issues one request, a GET without body to the URL of
    the path [search], whose parameters are the options merged over
    [{q: term, type: type}] (then prepared and merged like those of every
    GET), and its outcome is the normalised response to that request. *)
Theorem search_validates_type
    (self : client) (term type : string) (options : dict) (s : state) :
  (¬ (type = "post" ∨ type = "user" ∨ type = "page" ∨ type = "event"
      ∨ type = "group" ∨ type = "place" ∨ type = "checkin") →
     issues (GraphAPI.search self term type options) s []
     ∧ ∃ message, outcome (GraphAPI.search self term type options) s
                  = Raise (ValueError message))
  ∧ (type = "post" ∨ type = "user" ∨ type = "page" ∨ type = "event"
     ∨ type = "group" ∨ type = "place" ∨ type = "checkin" →
     ∃ r, issues (GraphAPI.search self term type options) s [r]
          ∧ outcome (GraphAPI.search self term type options) s
            = normalized_response s r
          ∧ r = built_request "GET" "search"
                  (prepared self (options ∪ {["q" := PStr term; "type" := PStr type]}))
          ∧ sent_method r = "GET"
          ∧ sent_body r = None
          ∧ sent_url r
            = geturl (_replace_query (urlparse "https://graph.facebook.com/search")
                        (urlencode (sent_params r)))
          ∧ (∀ k v, k ≠ "access_token" → options !! k = Some v →
               sent_params r !! k = Some (flattened v))
          ∧ (options !! "q" = None → sent_params r !! "q" = Some (PStr term))
          ∧ (options !! "type" = None → sent_params r !! "type" = Some (PStr type))).
Proof.
  rewrite <- SUPPORTED_TYPES_spec. split.
  - intros Hout. by apply search_rejects.
  - intros Hin. eexists. split; [by apply search_issues|].
    split; [|split; [reflexivity|]].
    { unfold outcome. rewrite search_run.
      by rewrite bool_decide_eq_false_2 by (by intros Hn). }
    repeat split.
    + intros k v Hk Hv. apply built_request_lookup.
      rewrite prepared_lookup_ne by done.
      by rewrite (lookup_union_Some_l _ _ _ _ Hv).
    + intros Hq. apply built_request_lookup.
      rewrite prepared_lookup_ne by done.
      rewrite lookup_union_r by done. by rewrite lookup_insert_eq.
    + intros Hq. apply built_request_lookup.
      rewrite prepared_lookup_ne by done.
      rewrite lookup_union_r by done.
      rewrite lookup_insert_ne by done. by rewrite lookup_singleton_eq.
Qed.

(** ** Merging into the query string *)

Lemma _query_issues (self : client) (method path : string) (data : ref) (s : state) :
  valid s data →
  issues (GraphAPI._query self method path data) s
    [built_request method path (prepared self (deref s data))].
Proof.
  intros Hv. unfold issues. rewrite _query_run by done.
  simpl. by rewrite sent_assign.
Qed.

Lemma prepared_lookup (self : client) (d : dict) (k : string) :
  prepared self d !! k
  = if bool_decide (k = "access_token") && truthy (oauth_token self)
    then Some (oauth_token self)
    else flattened <$> d !! k.
Proof.
  destruct (decide (k = "access_token")) as [->|Hk].
  - rewrite bool_decide_eq_true_2 by done. simpl.
    destruct (truthy (oauth_token self)) eqn:Ht.
    + by apply prepared_access_token.
    + rewrite prepared_unauthenticated by done. apply lookup_fmap.
  - rewrite bool_decide_eq_false_2 by done. simpl.
    by apply prepared_lookup_ne.
Qed.

Lemma merged_lookup (self : client) (path : string) (d : dict) (k : string) :
  (prepared self d ∪ path_params path) !! k
  = if bool_decide (k = "access_token") && truthy (oauth_token self)
    then Some (oauth_token self)
    else match d !! k with
         | Some v => Some (flattened v)
         | None => path_params path !! k
         end.
Proof.
  rewrite lookup_union, prepared_lookup.
  destruct (bool_decide (k = "access_token") && truthy (oauth_token self)).
  - by destruct (path_params path !! k).
  - destruct (d !! k); simpl; [by destruct (path_params path !! k)|].
    by destruct (path_params path !! k).
Qed.

(** The mapping that [_query] hands to [urlencode] for a GET or a
    DELETE: the parameters parsed from the path, overridden by the data
    as prepared (the caller's parameters with every list of strings
    joined by commas and, when the client has a token, [access_token]
    bound to that token). The request has no body and its URL carries
    what [urlencode] makes of that mapping. *)
Lemma query_string_mapping
    (self : client) (method path : string) (data : ref) (s : state) :
  method = "GET" ∨ method = "DELETE" → valid s data →
  ∃ r, issues (GraphAPI._query self method path data) s [r]
       ∧ in_query_string path r
       ∧ sent_params r = prepared self (deref s data) ∪ path_params path
       ∧ ∀ k, sent_params r !! k
              = if bool_decide (k = "access_token") && truthy (oauth_token self)
                then Some (oauth_token self)
                else match deref s data !! k with
                     | Some v => Some (flattened v)
                     | None => path_params path !! k
                     end.
Proof.
  intros Hm Hv. eexists. split; [by apply _query_issues|].
  assert (bool_decide (method ∈ ["GET"; "DELETE"]) = true) as Hin
    by (destruct Hm as [->| ->]; apply bool_decide_eq_true_2;
        rewrite !elem_of_cons; tauto).
  split.
  - pose proof (built_request_on_the_wire method path
                  (prepared self (deref s data))) as [_ Hw].
    by rewrite Hin in Hw.
  - unfold built_request. rewrite Hin. simpl. split; [done|].
    intros k. apply merged_lookup.
Qed.

(** ** Lists of strings *)

Lemma is_string_list_strings (items : list string) :
  is_string_list (PList (PStr <$> items)) = true.
Proof. simpl. induction items as [|a items IH]; simpl; done. Qed.

Lemma str_of_strings (items : list string) : str_of <$> (PStr <$> items) = items.
Proof. induction items as [|a items IH]; simpl; [done|]. by f_equal. Qed.

Lemma flattened_strings (items : list string) :
  flattened (PList (PStr <$> items)) = PStr (String.concat "," items).
Proof.
  unfold flattened. rewrite is_string_list_strings. simpl.
  by rewrite str_of_strings.
Qed.

Lemma prepared_strings (self : client) (d : dict) (k : string) (items : list string) :
  d !! k = Some (PList (PStr <$> items)) →
  k ≠ "access_token" ∨ truthy (oauth_token self) = false →
  prepared self d !! k = Some (PStr (String.concat "," items)).
Proof.
  intros Hk Hside. rewrite prepared_lookup, Hk. simpl.
  rewrite flattened_strings.
  destruct Hside as [Hne| ->].
  - by rewrite bool_decide_eq_false_2 by done.
  - by rewrite andb_false_r.
Qed.

Lemma prepared_strings_lookup
    (self : client) (d : dict) (k : string) (items : list string) :
  d !! k = Some (PList (PStr <$> items)) →
  prepared self d !! k
  = Some (if bool_decide (k = "access_token") && truthy (oauth_token self)
          then oauth_token self
          else PStr (String.concat "," items)).
Proof.
  intros Hk. rewrite prepared_lookup, Hk. simpl. rewrite flattened_strings.
  by destruct (bool_decide (k = "access_token") && truthy (oauth_token self)).
Qed.

(** C6, amended. When the data mapping passed to [_query] binds a key
    to a list of strings, the request transmits for that key the single
    string made of the elements in their order, separated by commas,
    unless the key is [access_token] and the client has a token: then it
    transmits the token. The value is what the transport receives, in
    the query string of a GET or DELETE and in the body otherwise. So it
    is for the caller's parameters of [get] and [post]. *)
Theorem string_lists_are_joined
    (self : client) (method path : string) (data : ref) (d : dict) (s : state)
    (k : string) (items : list string) :
  (valid s data → deref s data !! k = Some (PList (PStr <$> items)) →
     ∃ r, issues (GraphAPI._query self method path data) s [r]
          ∧ on_the_wire method path r
          ∧ sent_params r !! k
            = Some (if bool_decide (k = "access_token") && truthy (oauth_token self)
                    then oauth_token self
                    else PStr (String.concat "," items)))
  ∧ (d !! k = Some (PList (PStr <$> items)) →
     (∃ r, issues (GraphAPI.get self path d) s [r]
           ∧ sent_method r = "GET"
           ∧ in_query_string path r
           ∧ sent_params r !! k
             = Some (if bool_decide (k = "access_token") && truthy (oauth_token self)
                     then oauth_token self
                     else PStr (String.concat "," items)))
     ∧ (∃ r, issues (GraphAPI.post self path d) s [r]
             ∧ sent_method r = "POST"
             ∧ in_body path r
             ∧ sent_params r !! k
               = Some (if bool_decide (k = "access_token") && truthy (oauth_token self)
                       then oauth_token self
                       else PStr (String.concat "," items)))).
Proof.
  split.
  - intros Hv Hk. eexists. split; [by apply _query_issues|].
    split; [apply built_request_on_the_wire|].
    apply built_request_lookup. by apply prepared_strings_lookup.
  - intros Hk. split; eexists.
    + split; [apply get_issues|].
      split; [apply get_on_the_wire|]. split; [apply get_on_the_wire|].
      apply built_request_lookup. by apply prepared_strings_lookup.
    + split; [apply post_issues|].
      split; [apply post_on_the_wire|]. split; [apply post_on_the_wire|].
      apply built_request_lookup. by apply prepared_strings_lookup.
Qed.

(** ** Construction *)

Lemma init_run (oauth_token signed_request app_secret : pyval) (s : state) :
  GraphAPI.__init__ oauth_token signed_request app_secret s
  = if negb (truthy oauth_token) && truthy signed_request && truthy app_secret
    then (sr ← parse_signed_request signed_request app_secret;
          Ok (mkClient (default PNone (sr !! "oauth_token"))),
          record_parse signed_request app_secret s)
    else (Ok (mkClient oauth_token), s).
Proof.
  unfold GraphAPI.__init__.
  destruct (negb (truthy oauth_token) && truthy signed_request && truthy app_secret);
    [|done].
  unfold mbind at 1, M_bind, GraphAPI.call_parse_signed_request.
  by destruct (parse_signed_request signed_request app_secret).
Qed.

Lemma unauthenticated_lookup (self : client) (method path : string) (d : dict) :
  truthy (oauth_token self) = false →
  d !! "access_token" = None →
  path_params path !! "access_token" = None →
  sent_params (built_request method path (prepared self d)) !! "access_token" = None.
Proof.
  intros Ht Hd Hp. rewrite sent_params_built, prepared_unauthenticated by done.
  destruct (bool_decide _).
  - apply lookup_union_None. by rewrite lookup_fmap, Hd.
  - by rewrite lookup_fmap, Hd.
Qed.

(** C8, amended. Construction with an explicit token that is not empty
    yields a client with that token and leaves the state as it was: the
    signed request parser is not called, whatever signed request and
    secret come with it. The parser is called, once, exactly when the
    explicit token is absent or empty and both the signed request and the
    application secret are given and not empty; the client's token is
    then the [oauth_token] entry of what the parser returns, or absent.
    With no token and no signed request material construction succeeds
    with an absent token, and the client adds no [access_token] to its
    requests: a [get], [post] or [search] transmits the caller's
    parameters (lists of strings joined), for GET merged over those of
    the path, and so carries [access_token] only when these do. What is
    transmitted is what the transport receives: the query string of the
    URL of a GET, which has no body, and the body of a POST. *)
Theorem construction
    (oauth_token signed_request app_secret : pyval) (s : state) :
  (truthy oauth_token = true →
     GraphAPI.__init__ oauth_token signed_request app_secret s
     = (Ok (mkClient oauth_token), s))
  ∧ (truthy oauth_token = false ∧ truthy signed_request = true
     ∧ truthy app_secret = true →
       parsed (GraphAPI.__init__ oauth_token signed_request app_secret s).2
       = (parsed s ++ [(signed_request, app_secret)])%list
       ∧ outcome (GraphAPI.__init__ oauth_token signed_request app_secret) s
         = (sr ← parse_signed_request signed_request app_secret;
            Ok (mkClient (default PNone (sr !! "oauth_token")))))
  ∧ (¬ (truthy oauth_token = false ∧ truthy signed_request = true
        ∧ truthy app_secret = true) →
       GraphAPI.__init__ oauth_token signed_request app_secret s
       = (Ok (mkClient oauth_token), s))
  ∧ GraphAPI.__init__ PNone PNone PNone s = (Ok (mkClient PNone), s)
  ∧ (∀ path options s', ∃ r,
       issues (GraphAPI.get (mkClient PNone) path options) s' [r]
       ∧ sent_method r = "GET"
       ∧ in_query_string path r
       ∧ sent_params r = (flattened <$> options) ∪ path_params path
       ∧ (options !! "access_token" = None →
          path_params path !! "access_token" = None →
          sent_params r !! "access_token" = None))
  ∧ (∀ path data s', ∃ r,
       issues (GraphAPI.post (mkClient PNone) path data) s' [r]
       ∧ sent_method r = "POST"
       ∧ in_body path r
       ∧ sent_params r = flattened <$> data
       ∧ (data !! "access_token" = None →
          sent_params r !! "access_token" = None))
  ∧ (∀ term type options s',
       type ∈ GraphAPI.SUPPORTED_TYPES → ∃ r,
       issues (GraphAPI.search (mkClient PNone) term type options) s' [r]
       ∧ sent_method r = "GET"
       ∧ in_query_string "search" r
       ∧ sent_params r
         = (flattened <$> (options ∪ {["q" := PStr term; "type" := PStr type]}))
           ∪ path_params "search"
       ∧ (options !! "access_token" = None →
          path_params "search" !! "access_token" = None →
          sent_params r !! "access_token" = None)).
Proof.
  split; [by apply init_explicit|].
  split; [|split; [|split; [done|]]].
  - intros (Ht & Hs & Ha). unfold outcome. rewrite init_run, Ht, Hs, Ha. done.
  - intros Hn. rewrite init_run.
    destruct (truthy oauth_token), (truthy signed_request), (truthy app_secret);
      simpl; try done.
    by destruct Hn.
  - split; [|split].
    + intros path options s'. eexists. split; [apply get_issues|].
      split; [apply get_on_the_wire|]. split; [apply get_on_the_wire|].
      split; [|by apply unauthenticated_lookup].
      rewrite sent_params_built. simpl.
      by rewrite prepared_unauthenticated.
    + intros path data s'. eexists. split; [apply post_issues|].
      split; [apply post_on_the_wire|]. split; [apply post_on_the_wire|].
      rewrite sent_params_built. simpl.
      rewrite prepared_unauthenticated by done.
      split; [done|]. intros Hd. by rewrite lookup_fmap, Hd.
    + intros term type options s' Hin. eexists.
      split; [by apply search_issues|].
      split; [apply get_on_the_wire|]. split; [apply get_on_the_wire|].
      split.
      * rewrite sent_params_built. simpl.
        by rewrite prepared_unauthenticated.
      * intros Ho Hp. apply unauthenticated_lookup; [done| |done].
        apply lookup_union_None. split; [done|].
        rewrite lookup_insert_ne by done. by rewrite lookup_singleton_ne.
Qed.

(** ** The default value of [data] *)



End Properties.

(** * The statements on concrete inputs *)

(** C1 at the token [T], for a client built next to a signed request and
    a caller that passes an [access_token] of its own. *)
Lemma access_token_on_every_request_witness :
  "T" ≠ EmptyString
  ∧ ∃ r, issues
           (GraphAPI.get (ext := Sample.externals (Ok "true"))
              (mkClient (PStr "T")) "me" {["access_token" := PStr "other"]})
           initial_state [r]
         ∧ sent_params r !! "access_token" = Some (PStr "T")
         ∧ sent_body r = None
         ∧ sent_url r = "https://graph.facebook.com/me?access_token=T".
Proof.
  assert ("T" ≠ EmptyString) as Ht by done.
  split; [exact Ht|].
  destruct (access_token_on_every_request (ext := Sample.externals (Ok "true"))
              "T" (PStr "signed.request") (PStr "secret") initial_state Ht)
    as (self & Hinit & Hget & _).
  rewrite init_explicit in Hinit by done.
  injection Hinit as <-.
  destruct (Hget "me" {["access_token" := PStr "other"]} initial_state)
    as (r & Hissues & _ & (Hbody & Hurl) & Htoken).
  exists r. split; [exact Hissues|]. split; [exact Htoken|].
  split; [exact Hbody|]. rewrite Hurl.
  apply (issues_inj _ _ _ _ (get_issues _ _ _ _)) in Hissues.
  injection Hissues as <-. vm_compute. reflexivity.
Defined.

(** C2, amended, on the body [{"error": {"message": "bad token"}}]. *)
Lemma parse_of_a_mapping_witness :
  json_loads (Externals := Sample.externals (Ok "true")) Sample.body_error_message
  = Some (PDict {["error" := PDict {["message" := PStr "bad token"]}]})
  ∧ GraphAPI._parse (ext := Sample.externals (Ok "true")) Sample.body_error_message
    = Raise (Error (PStr "bad token")).
Proof.
  assert (json_loads (Externals := Sample.externals (Ok "true")) Sample.body_error_message
          = Some (PDict {["error" := PDict {["message" := PStr "bad token"]}]}))
    as Hd by (vm_compute; reflexivity).
  split; [exact Hd|].
  destruct (parse_of_a_mapping (ext := Sample.externals (Ok "true")) _ _ Hd)
    as (Herror & _).
  apply (Herror {["message" := PStr "bad token"]}); vm_compute; reflexivity.
Defined.

(** C2 as stated fails on the body [{"error": "x"}]: the mapping has the
    key [error], and [_parse] raises [TypeError], not the API error. *)
Lemma parse_error_without_message :
  json_loads (Externals := Sample.externals (Ok "true")) Sample.body_error_text
  = Some (PDict {["error" := PStr "x"]})
  ∧ GraphAPI._parse (ext := Sample.externals (Ok "true")) Sample.body_error_text
    = Raise TypeError
  ∧ ∀ message,
      GraphAPI._parse (ext := Sample.externals (Ok "true")) Sample.body_error_text
      ≠ Raise (Error message).
Proof.
  assert (GraphAPI._parse (ext := Sample.externals (Ok "true")) Sample.body_error_text
          = Raise TypeError) as Hp by (vm_compute; reflexivity).
  split; [vm_compute; reflexivity|]. split; [exact Hp|].
  intros message. rewrite Hp. discriminate.
Qed.

(** C3 on a transport that answers [false], for [get] and [post], and
    on one that answers [true], for [delete]. *)
Lemma false_raises_true_returns_witness :
  outcome (GraphAPI.get (ext := Sample.externals (Ok "false"))
             (mkClient PNone) "me" ∅) initial_state
  = Raise (Error (PStr ("Could not get " ++ dquote ++ "me" ++ dquote ++ ".")))
  ∧ outcome (GraphAPI.post (ext := Sample.externals (Ok "false"))
               (mkClient PNone) "me/feed" {["message" := PStr "hello"]})
      initial_state
    = Raise (Error (PStr ("Could not post to " ++ dquote ++ "me/feed" ++ dquote)))
  ∧ outcome (GraphAPI.delete (ext := Sample.externals (Ok "true"))
               (mkClient PNone) "me") initial_state
    = Ok (PBool true).
Proof.
  split; [|split].
  - destruct (false_raises_true_returns (ext := Sample.externals (Ok "false"))
                (mkClient PNone) "me" ∅ initial_state)
      as ((r & _ & Hfalse & _) & _).
    apply Hfalse. vm_compute. reflexivity.
  - destruct (false_raises_true_returns (ext := Sample.externals (Ok "false"))
                (mkClient PNone) "me/feed" {["message" := PStr "hello"]}
                initial_state)
      as (_ & (r & _ & Hfalse & _) & _).
    apply Hfalse. vm_compute. reflexivity.
  - destruct (false_raises_true_returns (ext := Sample.externals (Ok "true"))
                (mkClient PNone) "me" ∅ initial_state)
      as (_ & _ & (r & _ & _ & Htrue)).
    apply Htrue. vm_compute. reflexivity.
Defined.

(** C4, amended, on a body that is not JSON. *)
Lemma parse_shapes_witness :
  json_loads (Externals := Sample.externals (Ok "true")) "plain text" = None
  ∧ GraphAPI._parse (ext := Sample.externals (Ok "true")) "plain text"
    = Ok (PStr "plain text").
Proof.
  assert (json_loads (Externals := Sample.externals (Ok "true")) "plain text" = None)
    as Hn by reflexivity.
  split; [exact Hn|].
  destruct (parse_shapes (ext := Sample.externals (Ok "true")) "plain text")
    as (Hraw & _).
  exact (Hraw Hn).
Defined.

(** C4 as stated fails on the body [{"data": [1, 2, 3], "paging": {}}]:
    the result is the list under [data], which is neither a boolean, nor a
    mapping, nor the raw text; and on [{"error": {"message": "bad
    token"}}], where there is no result but an exception. *)
Lemma parse_other_shapes :
  json_loads (Externals := Sample.externals (Ok "true")) Sample.body_data_paging
  = Some (PDict {["data" := Sample.one_two_three; "paging" := PDict ∅]})
  ∧ GraphAPI._parse (ext := Sample.externals (Ok "true")) Sample.body_data_paging
    = Ok (PList [PInt 1; PInt 2; PInt 3])
  ∧ ¬ ((∃ b, GraphAPI._parse (ext := Sample.externals (Ok "true"))
               Sample.body_data_paging = Ok (PBool b))
       ∨ (∃ d, GraphAPI._parse (ext := Sample.externals (Ok "true"))
                 Sample.body_data_paging = Ok (PDict d))
       ∨ GraphAPI._parse (ext := Sample.externals (Ok "true"))
           Sample.body_data_paging = Ok (PStr Sample.body_data_paging))
  ∧ GraphAPI._parse (ext := Sample.externals (Ok "true")) Sample.body_error_message
    = Raise (Error (PStr "bad token")).
Proof.
  assert (GraphAPI._parse (ext := Sample.externals (Ok "true"))
            Sample.body_data_paging = Ok (PList [PInt 1; PInt 2; PInt 3]))
    as Hp by (vm_compute; reflexivity).
  split; [vm_compute; reflexivity|]. split; [exact Hp|].
  split; [|vm_compute; reflexivity].
  rewrite Hp. intros [[b Hb]|[[d Hd]|Hs]]; discriminate.
Qed.

(** C5. The comment in [_query] says that the parameters the URL has
    already are parsed and the URL reconstructed with the data added. On
    [get("me?a=1")] by a client without token the reconstructed URL does
    not carry [a=1]: [parse_qs] returns every value in a list, and
    [urlencode] is called without [doseq], so the list is written out as
    text. The parameter of the path comes back from the final URL as
    [['1']]. *)
Lemma path_parameter_is_mangled :
  ∃ r, issues (GraphAPI.get (ext := Sample.externals (Ok "true"))
                 (mkClient PNone) "me?a=1" ∅)
         initial_state [r]
       ∧ path_params (ext := Sample.externals (Ok "true")) "me?a=1"
         = {["a" := PList [PStr "1"]]}
       ∧ sent_url r = "https://graph.facebook.com/me?a=%5B%271%27%5D"
       ∧ Sample.parse_qs (query (Sample.urlparse (sent_url r)))
         = {["a" := PList [PStr "['1']"]]}
       ∧ Sample.parse_qs (query (Sample.urlparse (sent_url r)))
         ≠ path_params (ext := Sample.externals (Ok "true")) "me?a=1".
Proof.
  eexists. split; [apply get_issues|].
  split; [vm_compute; reflexivity|].
  split; [vm_compute; reflexivity|].
  split; [vm_compute; reflexivity|].
  intros Heq.
  assert (Sample.parse_qs
            (query (Sample.urlparse
               (sent_url (built_request (ext := Sample.externals (Ok "true"))
                            "GET" "me?a=1" (prepared (mkClient PNone) ∅)))))
            !! "a"
          = Some (PList [PStr "1"])) as Ha
    by (rewrite Heq; vm_compute; reflexivity).
  vm_compute in Ha. discriminate.
Qed.

(** C6, amended, on [get("me", ids=["x", "y", "z"])]. *)
Lemma string_lists_are_joined_witness :
  ∃ r, issues (GraphAPI.get (ext := Sample.externals (Ok "true"))
                 (mkClient PNone) "me"
                 {["ids" := PList [PStr "x"; PStr "y"; PStr "z"]]})
         initial_state [r]
       ∧ sent_params r !! "ids" = Some (PStr "x,y,z")
       ∧ sent_url r = "https://graph.facebook.com/me?ids=x%2Cy%2Cz".
Proof.
  destruct (string_lists_are_joined (ext := Sample.externals (Ok "true"))
              (mkClient PNone) "GET" "me" QueryDefault
              {["ids" := PList [PStr "x"; PStr "y"; PStr "z"]]}
              initial_state "ids" ["x"; "y"; "z"])
    as (_ & Hverbs).
  destruct Hverbs as ((r & Hissues & _ & (_ & Hurl) & Hids) & _);
    [vm_compute; reflexivity|].
  exists r. split; [exact Hissues|]. split; [exact Hids|].
  rewrite Hurl.
  apply (issues_inj _ _ _ _ (get_issues _ _ _ _)) in Hissues.
  injection Hissues as <-. vm_compute. reflexivity.
Defined.

(** C6 as stated fails twice. For a client with the token [T] and the
    key [access_token], [get("me", access_token=["a", "b"])] transmits
    the token, not the joined list. And a sequence of strings that is not
    a [list] is not joined: [get("me", ids=("x", "y"))] transmits the
    tuple, which [urlencode] writes out as text. *)
Lemma values_that_are_not_joined :
  (∃ r, issues (GraphAPI.get (ext := Sample.externals (Ok "true"))
                  (mkClient (PStr "T")) "me"
                  {["access_token" := PList [PStr "a"; PStr "b"]]})
          initial_state [r]
        ∧ sent_params r !! "access_token" = Some (PStr "T")
        ∧ sent_params r !! "access_token" ≠ Some (PStr "a,b")
        ∧ sent_url r = "https://graph.facebook.com/me?access_token=T")
  ∧ (∃ r, issues (GraphAPI.get (ext := Sample.externals (Ok "true"))
                    (mkClient PNone) "me"
                    {["ids" := PTuple [PStr "x"; PStr "y"]]})
            initial_state [r]
          ∧ sent_params r !! "ids" = Some (PTuple [PStr "x"; PStr "y"])
          ∧ sent_params r !! "ids" ≠ Some (PStr "x,y")
          ∧ sent_url r
            = "https://graph.facebook.com/me?ids=%28%27x%27%2C+%27y%27%29").
Proof.
  split; eexists; (split; [apply get_issues|]).
  - assert (sent_params
              (built_request (ext := Sample.externals (Ok "true")) "GET" "me"
                 (prepared (mkClient (PStr "T"))
                    {["access_token" := PList [PStr "a"; PStr "b"]]}))
              !! "access_token" = Some (PStr "T")) as Ht
      by (vm_compute; reflexivity).
    split; [exact Ht|]. split; [rewrite Ht; discriminate|].
    vm_compute. reflexivity.
  - assert (sent_params
              (built_request (ext := Sample.externals (Ok "true")) "GET" "me"
                 (prepared (mkClient PNone)
                    {["ids" := PTuple [PStr "x"; PStr "y"]]}))
              !! "ids" = Some (PTuple [PStr "x"; PStr "y"])) as Ht
      by (vm_compute; reflexivity).
    split; [exact Ht|]. split; [rewrite Ht; discriminate|].
    vm_compute. reflexivity.
Qed.

(** C7 on the type [invalid-type]. *)
Lemma search_validates_type_witness :
  issues (GraphAPI.search (ext := Sample.externals (Ok "true"))
            (mkClient PNone) "x" "invalid-type" ∅) initial_state []
  ∧ ∃ message,
      outcome (GraphAPI.search (ext := Sample.externals (Ok "true"))
                 (mkClient PNone) "x" "invalid-type" ∅) initial_state
      = Raise (ValueError message).
Proof.
  destruct (search_validates_type (ext := Sample.externals (Ok "true"))
              (mkClient PNone) "x" "invalid-type" ∅ initial_state)
    as (Hreject & _).
  apply Hreject. intros [?|[?|[?|[?|[?|[?|?]]]]]]; discriminate.
Defined.

(** C8, amended, on an explicit token next to a signed request, on a
    signed request alone, and on a [get] by the client without token. *)
Lemma construction_witness :
  GraphAPI.__init__ (ext := Sample.externals (Ok "true"))
    (PStr "T") (PStr "signed.request") (PStr "secret") initial_state
  = (Ok (mkClient (PStr "T")), initial_state)
  ∧ parsed (GraphAPI.__init__ (ext := Sample.externals (Ok "true"))
              PNone (PStr "signed.request") (PStr "secret") initial_state).2
    = [(PStr "signed.request", PStr "secret")]
  ∧ outcome (GraphAPI.__init__ (ext := Sample.externals (Ok "true"))
               PNone (PStr "signed.request") (PStr "secret")) initial_state
    = Ok (mkClient (PStr "token-of-the-signed-request"))
  ∧ ∃ r, issues (GraphAPI.get (ext := Sample.externals (Ok "true"))
                   (mkClient PNone) "me" {["limit" := PInt 5]})
           initial_state [r]
         ∧ sent_body r = None
         ∧ sent_url r = "https://graph.facebook.com/me?limit=5".
Proof.
  split; [|split; [|split]].
  - destruct (construction (ext := Sample.externals (Ok "true"))
                (PStr "T") (PStr "signed.request") (PStr "secret") initial_state)
      as (Hexplicit & _).
    apply Hexplicit. reflexivity.
  - destruct (construction (ext := Sample.externals (Ok "true"))
                PNone (PStr "signed.request") (PStr "secret") initial_state)
      as (_ & Hsigned & _).
    destruct Hsigned as (Hparsed & _); [by repeat split|].
    exact Hparsed.
  - destruct (construction (ext := Sample.externals (Ok "true"))
                PNone (PStr "signed.request") (PStr "secret") initial_state)
      as (_ & Hsigned & _).
    destruct Hsigned as (_ & Houtcome); [by repeat split|].
    exact Houtcome.
  - destruct (construction (ext := Sample.externals (Ok "true"))
                PNone PNone PNone initial_state)
      as (_ & _ & _ & _ & Hget & _).
    destruct (Hget "me" {["limit" := PInt 5]} initial_state)
      as (r & Hissues & _ & (Hbody & Hurl) & Hparams & _).
    exists r. split; [exact Hissues|]. split; [exact Hbody|].
    rewrite Hurl, Hparams. vm_compute. reflexivity.
Defined.

(** C8 as stated fails twice. An explicit token that is the empty string
    is given, and still the parser is called and the client's token is the
    one of the signed request. And the client built with no token and no
    signed request material issues a request that carries [access_token]
    when the caller passes one. *)
Lemma construction_counterexample :
  GraphAPI.__init__ (ext := Sample.externals (Ok "true"))
    (PStr EmptyString) (PStr "signed.request") (PStr "secret") initial_state
  = (Ok (mkClient (PStr "token-of-the-signed-request")),
     record_parse (PStr "signed.request") (PStr "secret") initial_state)
  ∧ GraphAPI.__init__ (ext := Sample.externals (Ok "true"))
      PNone PNone PNone initial_state
    = (Ok (mkClient PNone), initial_state)
  ∧ ∃ r, issues (GraphAPI.get (ext := Sample.externals (Ok "true"))
                   (mkClient PNone) "me" {["access_token" := PStr "X"]})
           initial_state [r]
         ∧ sent_params r !! "access_token" = Some (PStr "X")
         ∧ sent_url r = "https://graph.facebook.com/me?access_token=X".
Proof.
  split; [vm_compute; reflexivity|]. split; [reflexivity|].
  eexists. split; [apply get_issues|].
  split; vm_compute; reflexivity.
Qed.

(** C9 on a transport that answers [false]. *)
Lemma search_returns_false_witness :
  outcome (GraphAPI.search (ext := Sample.externals (Ok "false"))
             (mkClient PNone) "x" "post" ∅) initial_state
  = Ok (PBool false).
Proof.
  apply (search_returns_false (ext := Sample.externals (Ok "false"))
           (mkClient PNone) "x" "post" ∅ initial_state
           (built_request (ext := Sample.externals (Ok "false")) "GET" "search"
              (prepared (mkClient PNone)
                 (∅ ∪ {["q" := PStr "x"; "type" := PStr "post"]})))).
  - apply search_issues. apply SUPPORTED_TYPES_spec. by left.
  - vm_compute. reflexivity.
Defined.


(** * Further properties of the client *)

Section Further.
Context {ext : Externals}.

(** ** Helpers *)

Lemma is_False_spec (v : pyval) : is_False v = true ↔ v = PBool false.
Proof.
  split; [|by intros ->].
  destruct v as [|[|]| | | | |]; simpl; intros Hv; done.
Qed.

Lemma normalized_response_answer (s : state) (r : request) :
  normalized_response s r = answer s r ≫= GraphAPI._parse.
Proof. reflexivity. Qed.

Lemma issued_by_get (self : client) (path : string) (options : dict)
    (s : state) (r : request) :
  issues (GraphAPI.get self path options) s [r] →
  r = built_request "GET" path (prepared self options).
Proof.
  intros Hi. apply (issues_inj _ _ _ _ (get_issues self path options s)) in Hi.
  by injection Hi.
Qed.

Lemma issued_by_post (self : client) (path : string) (data : dict)
    (s : state) (r : request) :
  issues (GraphAPI.post self path data) s [r] →
  r = built_request "POST" path (prepared self data).
Proof.
  intros Hi. apply (issues_inj _ _ _ _ (post_issues self path data s)) in Hi.
  by injection Hi.
Qed.

Lemma issued_by_delete (self : client) (path : string) (s : state) (r : request) :
  issues (GraphAPI.delete self path) s [r] →
  r = built_request "DELETE" path (prepared self (query_default s)).
Proof.
  intros Hi. apply (issues_inj _ _ _ _ (delete_issues self path s)) in Hi.
  by injection Hi.
Qed.

Lemma issued_by_search (self : client) (term type : string) (options : dict)
    (s : state) (r : request) :
  issues (GraphAPI.search self term type options) s [r] →
  type ∈ GraphAPI.SUPPORTED_TYPES
  ∧ r = built_request "GET" "search"
          (prepared self (options ∪ {["q" := PStr term; "type" := PStr type]})).
Proof.
  intros Hi.
  destruct (decide (type ∈ GraphAPI.SUPPORTED_TYPES)) as [Hin|Hout].
  - split; [done|].
    apply (issues_inj _ _ _ _ (search_issues self term type options s Hin)) in Hi.
    by injection Hi.
  - destruct (search_rejects self term type options s Hout) as [Hnone _].
    by apply (issues_inj _ _ _ _ Hnone) in Hi.
Qed.

Lemma get_outcome (self : client) (path : string) (options : dict)
    (s : state) (r : request) :
  issues (GraphAPI.get self path options) s [r] →
  outcome (GraphAPI.get self path options) s
  = match normalized_response s r with
    | Ok v => if is_False v
              then Raise (Error (PStr ("Could not get " ++ dquote ++ path ++ dquote ++ ".")))
              else Ok v
    | Raise e => Raise e
    end.
Proof.
  intros Hi. rewrite (issued_by_get _ _ _ _ _ Hi).
  unfold outcome. by rewrite get_run.
Qed.

Lemma post_outcome (self : client) (path : string) (data : dict)
    (s : state) (r : request) :
  issues (GraphAPI.post self path data) s [r] →
  outcome (GraphAPI.post self path data) s
  = match normalized_response s r with
    | Ok v => if is_False v
              then Raise (Error (PStr ("Could not post to " ++ dquote ++ path ++ dquote)))
              else Ok v
    | Raise e => Raise e
    end.
Proof.
  intros Hi. rewrite (issued_by_post _ _ _ _ _ Hi).
  unfold outcome. by rewrite post_run.
Qed.

Lemma delete_outcome (self : client) (path : string) (s : state) (r : request) :
  issues (GraphAPI.delete self path) s [r] →
  outcome (GraphAPI.delete self path) s
  = match normalized_response s r with
    | Ok v => if is_False v
              then Raise (Error (PStr ("Could not delete " ++ dquote ++ path ++ dquote)))
              else Ok v
    | Raise e => Raise e
    end.
Proof.
  intros Hi. rewrite (issued_by_delete _ _ _ _ Hi).
  unfold outcome. by rewrite delete_run.
Qed.

Lemma search_outcome (self : client) (term type : string) (options : dict)
    (s : state) (r : request) :
  issues (GraphAPI.search self term type options) s [r] →
  outcome (GraphAPI.search self term type options) s = normalized_response s r.
Proof.
  intros Hi. destruct (issued_by_search _ _ _ _ _ _ Hi) as [Hin ->].
  unfold outcome. rewrite search_run.
  by rewrite bool_decide_eq_false_2 by (by intros Hn).
Qed.

Lemma unchecked (message : string) (res : result pyval) :
  res ≠ Ok (PBool false) →
  match res with
  | Ok v => if is_False v then Raise (Error (PStr message)) else Ok v
  | Raise e => Raise e
  end = res.
Proof.
  intros Hne. destruct res as [v|e]; [|done].
  destruct (is_False v) eqn:Hv; [|done].
  apply is_False_spec in Hv. by subst.
Qed.

(** ** The branches of [_parse] *)

(** X1. When the decoded mapping has the key [error], [_parse] never
    returns: it raises the API error with the value at [error.message]
    when the value under [error] is a mapping with the key [message],
    [KeyError] for [message] when it is a mapping without that key, and
    [TypeError] when it is no mapping; a key [data] next to [error] is
    not looked at. *)
Theorem error_envelope_always_raises (body : string) (d : dict) (error : pyval) :
  json_loads body = Some (PDict d) →
  d !! "error" = Some error →
  GraphAPI._parse body
  = match error with
    | PDict e => match e !! "message" with
                 | Some message => Raise (Error message)
                 | None => Raise (KeyError "message")
                 end
    | _ => Raise TypeError
    end.
Proof.
  intros Hd He. rewrite (_parse_dict body d Hd), He.
  destruct error as [| | | | | |e]; try reflexivity.
  simpl. by destruct (e !! "message").
Qed.

(** X2. A body that is valid JSON but decodes to neither a boolean nor a
    mapping (a number, a string, a list, null) is normalised to [None],
    and [get], [post], [delete] and [search] then return [None] without
    raising. *)
Theorem other_json_values_become_None
    (body : string) (v : pyval) (self : client) (path term type : string)
    (params : dict) (s : state) (r : request) :
  json_loads body = Some v →
  (∀ b, v ≠ PBool b) → (∀ d, v ≠ PDict d) →
  answer s r = Ok body →
  GraphAPI._parse body = Ok PNone
  ∧ (issues (GraphAPI.get self path params) s [r] →
       outcome (GraphAPI.get self path params) s = Ok PNone)
  ∧ (issues (GraphAPI.post self path params) s [r] →
       outcome (GraphAPI.post self path params) s = Ok PNone)
  ∧ (issues (GraphAPI.delete self path) s [r] →
       outcome (GraphAPI.delete self path) s = Ok PNone)
  ∧ (issues (GraphAPI.search self term type params) s [r] →
       outcome (GraphAPI.search self term type params) s = Ok PNone).
Proof.
  intros Hv Hb Hd Ha.
  assert (GraphAPI._parse body = Ok PNone) as Hp
    by (by apply (_parse_falls_through body v)).
  assert (normalized_response s r = Ok PNone) as Hn.
  { rewrite normalized_response_answer, Ha. simpl. exact Hp. }
  split; [exact Hp|]. repeat split; intros Hi.
  - by rewrite (get_outcome _ _ _ _ _ Hi), Hn.
  - by rewrite (post_outcome _ _ _ _ _ Hi), Hn.
  - by rewrite (delete_outcome _ _ _ _ Hi), Hn.
  - by rewrite (search_outcome _ _ _ _ _ _ Hi), Hn.
Qed.

(** ** What the verbs add to the shared query path *)

(** X3. [get], [post] and [delete] hand on the normalised response as it
    is, value or exception, unless it is exactly [False]: values that are
    merely false in a test ([None], [0], an empty string, list or mapping)
    are returned, and nothing raised below is caught. *)
Theorem verbs_hand_on_the_response
    (self : client) (path : string) (params : dict) (s : state) (r : request) :
  normalized_response s r ≠ Ok (PBool false) →
  (issues (GraphAPI.get self path params) s [r] →
     outcome (GraphAPI.get self path params) s = normalized_response s r)
  ∧ (issues (GraphAPI.post self path params) s [r] →
     outcome (GraphAPI.post self path params) s = normalized_response s r)
  ∧ (issues (GraphAPI.delete self path) s [r] →
     outcome (GraphAPI.delete self path) s = normalized_response s r).
Proof.
  intros Hne. repeat split; intros Hi.
  - rewrite (get_outcome _ _ _ _ _ Hi). by apply unchecked.
  - rewrite (post_outcome _ _ _ _ _ Hi). by apply unchecked.
  - rewrite (delete_outcome _ _ _ _ Hi). by apply unchecked.
Qed.

(** X4. When the transport answers the request of a call with a body
    that decodes to a mapping whose [error] entry is a mapping with a
    [message], each of the four verbs raises the API error with that
    message. *)
Theorem error_envelope_raises_in_every_verb
    (body : string) (d e : dict) (message : pyval)
    (self : client) (path term type : string) (params : dict)
    (s : state) (r : request) :
  answer s r = Ok body →
  json_loads body = Some (PDict d) →
  d !! "error" = Some (PDict e) →
  e !! "message" = Some message →
  (issues (GraphAPI.get self path params) s [r] →
     outcome (GraphAPI.get self path params) s = Raise (Error message))
  ∧ (issues (GraphAPI.post self path params) s [r] →
     outcome (GraphAPI.post self path params) s = Raise (Error message))
  ∧ (issues (GraphAPI.delete self path) s [r] →
     outcome (GraphAPI.delete self path) s = Raise (Error message))
  ∧ (issues (GraphAPI.search self term type params) s [r] →
     outcome (GraphAPI.search self term type params) s = Raise (Error message)).
Proof.
  intros Ha Hd He Hm.
  assert (normalized_response s r = Raise (Error message)) as Hn.
  { rewrite normalized_response_answer, Ha. simpl.
    rewrite (_parse_dict body d Hd), He. simpl. by rewrite Hm. }
  repeat split; intros Hi.
  - by rewrite (get_outcome _ _ _ _ _ Hi), Hn.
  - by rewrite (post_outcome _ _ _ _ _ Hi), Hn.
  - by rewrite (delete_outcome _ _ _ _ Hi), Hn.
  - by rewrite (search_outcome _ _ _ _ _ _ Hi), Hn.
Qed.

(** X5. An exception of the transport goes through each of the four
    verbs unchanged. The request is on record all the same, and the
    dictionary was prepared before the request was made: after a failed
    [delete] the default dictionary holds the prepared parameters. *)
Theorem transport_error_propagates
    (e : exn) (self : client) (path term type : string) (params : dict)
    (s : state) (r : request) :
  answer s r = Raise e →
  (issues (GraphAPI.get self path params) s [r] →
     outcome (GraphAPI.get self path params) s = Raise e)
  ∧ (issues (GraphAPI.post self path params) s [r] →
     outcome (GraphAPI.post self path params) s = Raise e)
  ∧ (issues (GraphAPI.delete self path) s [r] →
     outcome (GraphAPI.delete self path) s = Raise e
     ∧ query_default (GraphAPI.delete self path s).2
       = prepared self (query_default s))
  ∧ (issues (GraphAPI.search self term type params) s [r] →
     outcome (GraphAPI.search self term type params) s = Raise e).
Proof.
  intros Ha.
  assert (normalized_response s r = Raise e) as Hn
    by (by rewrite normalized_response_answer, Ha).
  split; [|split; [|split]]; intros Hi.
  - by rewrite (get_outcome _ _ _ _ _ Hi), Hn.
  - by rewrite (post_outcome _ _ _ _ _ Hi), Hn.
  - split; [by rewrite (delete_outcome _ _ _ _ Hi), Hn | by rewrite delete_run].
  - by rewrite (search_outcome _ _ _ _ _ _ Hi), Hn.
Qed.

(** ** The shape of the requests *)


Lemma prepared_other_value (self : client) (d : dict) (k : string) (v : pyval) :
  is_string_list v = false →
  k ≠ "access_token" ∨ truthy (oauth_token self) = false →
  d !! k = Some v →
  prepared self d !! k = Some v.
Proof.
  intros Hv Hside Hk. rewrite prepared_lookup, Hk. simpl.
  unfold flattened. rewrite Hv.
  destruct Hside as [Hne| ->].
  - by rewrite bool_decide_eq_false_2 by done.
  - by rewrite andb_false_r.
Qed.

(** X7. The loop of [_query] rewrites lists of strings only: a value
    that is no list, or a list with an element that is no string, is
    transmitted as the caller passed it (under every key but
    [access_token] of a client that has a token): it is bound to its key
    in the mapping that goes into the query string of a GET or DELETE
    and into the body otherwise. *)
Theorem other_values_are_transmitted_unchanged
    (self : client) (method path : string) (data : ref) (d : dict) (s : state)
    (k : string) (v : pyval) :
  is_string_list v = false →
  k ≠ "access_token" ∨ truthy (oauth_token self) = false →
  (valid s data → deref s data !! k = Some v →
     ∃ r, issues (GraphAPI._query self method path data) s [r]
          ∧ on_the_wire method path r
          ∧ sent_params r !! k = Some v)
  ∧ (d !! k = Some v →
     (∃ r, issues (GraphAPI.get self path d) s [r]
           ∧ sent_method r = "GET"
           ∧ in_query_string path r
           ∧ sent_params r !! k = Some v)
     ∧ (∃ r, issues (GraphAPI.post self path d) s [r]
             ∧ sent_method r = "POST"
             ∧ in_body path r
             ∧ sent_params r !! k = Some v)).
Proof.
  intros Hv Hside. split.
  - intros Hvalid Hk. eexists. split; [by apply _query_issues|].
    split; [apply built_request_on_the_wire|].
    apply built_request_lookup. by apply prepared_other_value.
  - intros Hk. split; eexists.
    + split; [apply get_issues|].
      split; [apply get_on_the_wire|]. split; [apply get_on_the_wire|].
      apply built_request_lookup. by apply prepared_other_value.
    + split; [apply post_issues|].
      split; [apply post_on_the_wire|]. split; [apply post_on_the_wire|].
      apply built_request_lookup. by apply prepared_other_value.
Qed.

Lemma dom_prepared (self : client) (d : dict) :
  dom (prepared self d)
  = (if truthy (oauth_token self) then {["access_token"]} else ∅) ∪ dom d.
Proof.
  unfold prepared. rewrite flatten_lists_fmap.
  destruct (truthy (oauth_token self)).
  - by rewrite dom_insert_L, dom_fmap_L.
  - by rewrite dom_fmap_L, (left_id_L ∅ (∪)).
Qed.

(** X8. No parameter is dropped and none but [access_token] is added:
    the keys of the body that a [post] sends are the keys of the caller's
    data, with [access_token] when the client has a token; the keys of
    the mapping that a [get] encodes into the query string of its URL are
    those and the keys found in the query string of the path. *)
Theorem transmitted_keys
    (self : client) (path : string) (params : dict) (s : state) :
  (∃ r body, issues (GraphAPI.post self path params) s [r]
        ∧ sent_method r = "POST"
        ∧ sent_url r = "https://graph.facebook.com/" ++ path
        ∧ sent_body r = Some body
        ∧ dom body
          = (if truthy (oauth_token self) then {["access_token"]} else ∅)
            ∪ dom params)
  ∧ (∃ r, issues (GraphAPI.get self path params) s [r]
          ∧ sent_method r = "GET"
          ∧ in_query_string path r
          ∧ dom (sent_params r)
            = (if truthy (oauth_token self) then {["access_token"]} else ∅)
              ∪ dom params ∪ dom (path_params path)).
Proof.
  split.
  - eexists. eexists. split; [apply post_issues|].
    unfold built_request. simpl. repeat split. apply dom_prepared.
  - eexists. split; [apply get_issues|].
    split; [apply get_on_the_wire|]. split; [apply get_on_the_wire|].
    unfold built_request. simpl. by rewrite dom_union_L, dom_prepared.
Qed.

(** ** Repeated calls *)

Lemma flattened_idem (v : pyval) : flattened (flattened v) = flattened v.
Proof.
  unfold flattened at 2 3. destruct (is_string_list v) eqn:Hv.
  - destruct v; try discriminate. reflexivity.
  - unfold flattened. by rewrite Hv.
Qed.

Lemma prepared_idem (self : client) (d : dict) :
  prepared self (prepared self d) = prepared self d.
Proof.
  apply map_eq. intros k. rewrite (prepared_lookup self (prepared self d)).
  rewrite (prepared_lookup self d).
  destruct (bool_decide (k = "access_token") && truthy (oauth_token self));
    [done|].
  destruct (d !! k) as [v|]; simpl; [|done]. by rewrite flattened_idem.
Qed.

(** X9. Preparing is idempotent, so a client that repeats [delete]
    leaves the default dictionary as its first [delete] left it. *)
Theorem repeated_delete_is_stable (self : client) (path path' : string) (s : state) :
  query_default
    (GraphAPI.delete self path' (GraphAPI.delete self path s).2).2
  = query_default (GraphAPI.delete self path s).2.
Proof.
  assert (query_default (GraphAPI.delete self path s).2
          = prepared self (query_default s)) as Hfirst by (by rewrite delete_run).
  rewrite (delete_run self path'). simpl. rewrite Hfirst. apply prepared_idem.
Qed.

(** X10. The request that [get], [post] or [search] issues depends on the
    client and the arguments only, not on the state: each call works on a
    dictionary of its own, so nothing of an earlier call, a [delete]
    included, reaches it. *)
Theorem requests_do_not_depend_on_history
    (self : client) (path term type : string) (params : dict)
    (s1 s2 : state) (r1 r2 : request) :
  (issues (GraphAPI.get self path params) s1 [r1] →
   issues (GraphAPI.get self path params) s2 [r2] → r1 = r2)
  ∧ (issues (GraphAPI.post self path params) s1 [r1] →
     issues (GraphAPI.post self path params) s2 [r2] → r1 = r2)
  ∧ (issues (GraphAPI.search self term type params) s1 [r1] →
     issues (GraphAPI.search self term type params) s2 [r2] → r1 = r2).
Proof.
  repeat split; intros H1 H2.
  - by rewrite (issued_by_get _ _ _ _ _ H1), (issued_by_get _ _ _ _ _ H2).
  - by rewrite (issued_by_post _ _ _ _ _ H1), (issued_by_post _ _ _ _ _ H2).
  - destruct (issued_by_search _ _ _ _ _ _ H1) as [_ ->].
    by destruct (issued_by_search _ _ _ _ _ _ H2) as [_ ->].
Qed.

(** ** An invariant of the default dictionary *)

Lemma init_state (oauth_token signed_request app_secret : pyval) (s : state) :
  (GraphAPI.__init__ oauth_token signed_request app_secret s).2
  = if negb (truthy oauth_token) && truthy signed_request && truthy app_secret
    then record_parse signed_request app_secret s
    else s.
Proof. rewrite init_run. by destruct (_ && _). Qed.

Lemma query_default_after_call (c : call) (s : state) (k : string) :
  k ≠ "access_token" →
  query_default s !! k = None →
  query_default (after_call c s) !! k = None.
Proof.
  intros Hk Hs. destruct c; simpl.
  - rewrite init_state. by destruct (_ && _).
  - by rewrite get_run.
  - by rewrite post_run.
  - rewrite delete_run. simpl. rewrite prepared_lookup_ne by done.
    by rewrite Hs.
  - rewrite search_run. by destruct (bool_decide _).
Qed.

Lemma query_default_after_calls (cs : list call) (s : state) (k : string) :
  k ≠ "access_token" →
  query_default s !! k = None →
  query_default (after_calls cs s) !! k = None.
Proof.
  intros Hk. revert s. induction cs as [|c cs IH]; intros s Hs; [done|].
  simpl. apply IH. by apply query_default_after_call.
Qed.

(** X11. Whatever sequence of constructions and calls of the verbs has
    run since the module was loaded, by whatever clients, the default
    dictionary of [_query] holds no key other than [access_token]. *)
Theorem default_dictionary_invariant (cs : list call) (k : string) :
  k ≠ "access_token" →
  query_default (after_calls cs initial_state) !! k = None.
Proof. intros Hk. by apply query_default_after_calls. Qed.

(** ** Construction from a signed request *)

(** X12. When the explicit token is absent or empty and the parser
    returns a payload for the signed request and secret given, the
    client's token is the [oauth_token] entry of the payload ([None] when
    there is none), and a token found there that is not empty is attached
    to the requests of the client like an explicit one: [access_token] is
    bound to it in the mapping encoded into the query string of a GET or
    DELETE and in the body of a POST. *)
Theorem signed_request_token_is_attached
    (oauth_token signed_request app_secret : pyval) (payload : dict) (s0 : state) :
  truthy oauth_token = false →
  truthy signed_request = true →
  truthy app_secret = true →
  parse_signed_request signed_request app_secret = Ok payload →
  outcome (GraphAPI.__init__ oauth_token signed_request app_secret) s0
  = Ok (mkClient (default PNone (payload !! "oauth_token")))
  ∧ ∀ t, payload !! "oauth_token" = Some t → truthy t = true →
      (∀ path options s, ∃ r,
          issues (GraphAPI.get (mkClient t) path options) s [r]
          ∧ sent_method r = "GET"
          ∧ in_query_string path r
          ∧ sent_params r !! "access_token" = Some t)
      ∧ (∀ path data s, ∃ r,
          issues (GraphAPI.post (mkClient t) path data) s [r]
          ∧ sent_method r = "POST"
          ∧ in_body path r
          ∧ sent_params r !! "access_token" = Some t)
      ∧ (∀ path s, ∃ r,
          issues (GraphAPI.delete (mkClient t) path) s [r]
          ∧ sent_method r = "DELETE"
          ∧ in_query_string path r
          ∧ sent_params r !! "access_token" = Some t).
Proof.
  intros Ht Hs Ha Hp. split.
  - unfold outcome. rewrite init_run, Ht, Hs, Ha. simpl. by rewrite Hp.
  - intros t _ Htruthy.
    assert (∀ method path d,
      sent_params (built_request method path (prepared (mkClient t) d))
        !! "access_token" = Some t) as Htok.
    { intros. apply built_request_lookup.
      by apply (prepared_access_token (mkClient t)). }
    split; [|split].
    + intros path options s. eexists. split; [apply get_issues|].
      split; [apply get_on_the_wire|].
      split; [apply get_on_the_wire | apply Htok].
    + intros path data s. eexists. split; [apply post_issues|].
      split; [apply post_on_the_wire|].
      split; [apply post_on_the_wire | apply Htok].
    + intros path s. eexists. split; [apply delete_issues|].
      split; [apply delete_on_the_wire|].
      split; [apply delete_on_the_wire | apply Htok].
Qed.

(** X13. Construction issues no request and touches no dictionary, and
    it fails in one case only: when the signed request is parsed (the
    explicit token absent or empty, signed request and secret given and
    not empty) and the parser raises, whose exception it hands on. *)
Theorem construction_effects
    (oauth_token signed_request app_secret : pyval) (s : state) (e : exn) :
  sent (GraphAPI.__init__ oauth_token signed_request app_secret s).2 = sent s
  ∧ heap (GraphAPI.__init__ oauth_token signed_request app_secret s).2 = heap s
  ∧ query_default (GraphAPI.__init__ oauth_token signed_request app_secret s).2
    = query_default s
  ∧ (outcome (GraphAPI.__init__ oauth_token signed_request app_secret) s = Raise e
     ↔ truthy oauth_token = false ∧ truthy signed_request = true
       ∧ truthy app_secret = true
       ∧ parse_signed_request signed_request app_secret = Raise e).
Proof.
  rewrite init_state. unfold outcome. rewrite init_run.
  destruct (negb (truthy oauth_token) && truthy signed_request
            && truthy app_secret) eqn:Hcond; simpl.
  - apply andb_true_iff in Hcond as [Hcond Ha].
    apply andb_true_iff in Hcond as [Ht Hs].
    apply negb_true_iff in Ht.
    split; [done|]. split; [done|]. split; [done|]. split.
    + intros Hr. repeat split; try done.
      destruct (parse_signed_request signed_request app_secret) as [sr|e'];
        simpl in Hr; [discriminate|]. by injection Hr as ->.
    + intros (_ & _ & _ & ->). done.
  - split; [done|]. split; [done|]. split; [done|]. split; [discriminate|].
    intros (Ht & Hs & Ha & _). by rewrite Ht, Hs, Ha in Hcond.
Qed.

(** ** The envelope and the check on [False] together *)

(** X14. The envelope is opened before the verbs look at the response:
    each of [get], [post] and [delete] issues its request, and when the
    answer is a body that decodes to a mapping without [error] whose
    [data] is [False], the call raises the API error; [search] returns
    [False]. *)
Theorem data_envelope_holding_False
    (body : string) (d : dict) (self : client) (path term type : string)
    (params : dict) (s : state) :
  json_loads body = Some (PDict d) →
  d !! "error" = None →
  d !! "data" = Some (PBool false) →
  (∃ r, issues (GraphAPI.get self path params) s [r]
        ∧ (answer s r = Ok body →
           ∃ message, outcome (GraphAPI.get self path params) s
                      = Raise (Error (PStr message))))
  ∧ (∃ r, issues (GraphAPI.post self path params) s [r]
          ∧ (answer s r = Ok body →
             ∃ message, outcome (GraphAPI.post self path params) s
                        = Raise (Error (PStr message))))
  ∧ (∃ r, issues (GraphAPI.delete self path) s [r]
          ∧ (answer s r = Ok body →
             ∃ message, outcome (GraphAPI.delete self path) s
                        = Raise (Error (PStr message))))
  ∧ (type ∈ GraphAPI.SUPPORTED_TYPES →
     ∃ r, issues (GraphAPI.search self term type params) s [r]
          ∧ (answer s r = Ok body →
             outcome (GraphAPI.search self term type params) s
             = Ok (PBool false))).
Proof.
  intros Hd He Hdata.
  assert (∀ r, answer s r = Ok body →
               normalized_response s r = Ok (PBool false)) as Hn.
  { intros r Ha. rewrite normalized_response_answer, Ha. simpl.
    by rewrite (_parse_dict body d Hd), He, Hdata. }
  split; [|split; [|split]].
  - eexists. split; [apply get_issues|]. intros Ha.
    rewrite (get_outcome _ _ _ _ _ (get_issues _ _ _ _)), (Hn _ Ha). simpl. eauto.
  - eexists. split; [apply post_issues|]. intros Ha.
    rewrite (post_outcome _ _ _ _ _ (post_issues _ _ _ _)), (Hn _ Ha). simpl. eauto.
  - eexists. split; [apply delete_issues|]. intros Ha.
    rewrite (delete_outcome _ _ _ _ (delete_issues _ _ _)), (Hn _ Ha). simpl. eauto.
  - intros Hin. eexists. split; [by apply search_issues|]. intros Ha.
    by rewrite (search_outcome _ _ _ _ _ _ (search_issues _ _ _ _ _ Hin)), (Hn _ Ha).
Qed.


End Further.

(** * The further properties on concrete inputs *)

(** X1 on a mapping whose [error] entry is a mapping without [message],
    next to a [data] entry. *)
Lemma error_envelope_always_raises_witness :
  GraphAPI._parse
    (ext := decoding_to (PDict {["error" := PDict ∅; "data" := PInt 1]}) (Ok "{}"))
    "{}"
  = Raise (KeyError "message").
Proof.
  rewrite (error_envelope_always_raises
             (ext := decoding_to (PDict {["error" := PDict ∅; "data" := PInt 1]}) (Ok "{}"))
             "{}" {["error" := PDict ∅; "data" := PInt 1]} (PDict ∅)).
  - reflexivity.
  - reflexivity.
  - vm_compute. reflexivity.
Defined.

(** X2 on the body [[1, 2, 3]]. *)
Lemma other_json_values_become_None_witness :
  outcome (GraphAPI.get (ext := Sample.externals (Ok Sample.body_list))
             (mkClient PNone) "me" ∅) initial_state
  = Ok PNone.
Proof.
  destruct (other_json_values_become_None
              (ext := Sample.externals (Ok Sample.body_list))
              Sample.body_list Sample.one_two_three (mkClient PNone)
              "me" "x" "post" ∅ initial_state
              (built_request (ext := Sample.externals (Ok Sample.body_list))
                 "GET" "me" (prepared (mkClient PNone) ∅)))
    as (_ & Hget & _);
    [reflexivity | by intros b | by intros d | reflexivity |].
  apply Hget, get_issues.
Defined.

(** X3 on a body that is not JSON: [get] returns the text. *)
Lemma verbs_hand_on_the_response_witness :
  outcome (GraphAPI.get (ext := Sample.externals (Ok "plain text"))
             (mkClient PNone) "me" ∅) initial_state
  = Ok (PStr "plain text").
Proof.
  destruct (verbs_hand_on_the_response
              (ext := Sample.externals (Ok "plain text"))
              (mkClient PNone) "me" ∅ initial_state
              (built_request (ext := Sample.externals (Ok "plain text"))
                 "GET" "me" (prepared (mkClient PNone) ∅)))
    as (Hget & _); [vm_compute; discriminate|].
  rewrite (Hget (get_issues _ _ _ _)). vm_compute. reflexivity.
Defined.

(** X4 on the body [{"error": {"message": "bad token"}}] and [search]. *)
Lemma error_envelope_raises_in_every_verb_witness :
  outcome (GraphAPI.search (ext := Sample.externals (Ok Sample.body_error_message))
             (mkClient PNone) "x" "post" ∅) initial_state
  = Raise (Error (PStr "bad token")).
Proof.
  destruct (error_envelope_raises_in_every_verb
              (ext := Sample.externals (Ok Sample.body_error_message))
              Sample.body_error_message
              {["error" := PDict {["message" := PStr "bad token"]}]}
              {["message" := PStr "bad token"]} (PStr "bad token")
              (mkClient PNone) "me" "x" "post" ∅ initial_state
              (built_request (ext := Sample.externals (Ok Sample.body_error_message))
                 "GET" "search"
                 (prepared (mkClient PNone)
                    (∅ ∪ {["q" := PStr "x"; "type" := PStr "post"]}))))
    as (_ & _ & _ & Hsearch);
    [reflexivity | vm_compute; reflexivity | vm_compute; reflexivity
    | vm_compute; reflexivity |].
  apply Hsearch, search_issues, SUPPORTED_TYPES_spec. by left.
Defined.

(** X5 on a transport that times out, for a [delete] by a client with
    the token [T]. *)
Lemma transport_error_propagates_witness :
  outcome (GraphAPI.delete (ext := Sample.externals (Raise (TransportError "timeout")))
             (mkClient (PStr "T")) "1") initial_state
  = Raise (TransportError "timeout")
  ∧ query_default
      (GraphAPI.delete (ext := Sample.externals (Raise (TransportError "timeout")))
         (mkClient (PStr "T")) "1" initial_state).2
    = {["access_token" := PStr "T"]}.
Proof.
  destruct (transport_error_propagates
              (ext := Sample.externals (Raise (TransportError "timeout")))
              (TransportError "timeout") (mkClient (PStr "T")) "1" "x" "post" ∅
              initial_state
              (built_request (ext := Sample.externals (Raise (TransportError "timeout")))
                 "DELETE" "1" (prepared (mkClient (PStr "T")) ∅)))
    as (_ & _ & Hdelete & _); [reflexivity|].
  destruct (Hdelete (delete_issues _ _ _)) as (Hout & Hdefault).
  split; [exact Hout|]. rewrite Hdefault. vm_compute. reflexivity.
Defined.

(** X7 on [get("me", limit=5)]. *)
Lemma other_values_are_transmitted_unchanged_witness :
  ∃ r, issues (GraphAPI.get (ext := Sample.externals (Ok "true"))
                 (mkClient PNone) "me" {["limit" := PInt 5]})
         initial_state [r]
       ∧ sent_params r !! "limit" = Some (PInt 5)
       ∧ sent_url r = "https://graph.facebook.com/me?limit=5".
Proof.
  destruct (other_values_are_transmitted_unchanged
              (ext := Sample.externals (Ok "true"))
              (mkClient PNone) "GET" "me" QueryDefault
              {["limit" := PInt 5]} initial_state "limit" (PInt 5))
    as (_ & Hverbs); [reflexivity | by left |].
  destruct Hverbs as ((r & Hissues & _ & (_ & Hurl) & Hlimit) & _);
    [vm_compute; reflexivity|].
  exists r. split; [exact Hissues|]. split; [exact Hlimit|].
  rewrite Hurl.
  apply (issues_inj _ _ _ _ (get_issues _ _ _ _)) in Hissues.
  injection Hissues as <-. vm_compute. reflexivity.
Defined.

(** X10 on a [get] before and after a [delete] by the same client. *)
Lemma requests_do_not_depend_on_history_witness :
  ∃ r1 r2,
    issues (GraphAPI.get (ext := Sample.externals (Ok "true"))
              (mkClient PNone) "me" ∅) initial_state [r1]
    ∧ issues (GraphAPI.get (ext := Sample.externals (Ok "true"))
                (mkClient PNone) "me" ∅)
        (GraphAPI.delete (ext := Sample.externals (Ok "true"))
           (mkClient (PStr "T")) "1" initial_state).2 [r2]
    ∧ r1 = r2.
Proof.
  exists (built_request (ext := Sample.externals (Ok "true"))
            "GET" "me" (prepared (mkClient PNone) ∅)).
  exists (built_request (ext := Sample.externals (Ok "true"))
            "GET" "me" (prepared (mkClient PNone) ∅)).
  split; [apply get_issues|]. split; [apply get_issues|].
  destruct (requests_do_not_depend_on_history
              (ext := Sample.externals (Ok "true"))
              (mkClient PNone) "me" "x" "post" ∅
              initial_state
              (GraphAPI.delete (ext := Sample.externals (Ok "true"))
                 (mkClient (PStr "T")) "1" initial_state).2
              (built_request (ext := Sample.externals (Ok "true"))
                 "GET" "me" (prepared (mkClient PNone) ∅))
              (built_request (ext := Sample.externals (Ok "true"))
                 "GET" "me" (prepared (mkClient PNone) ∅)))
    as (Hget & _).
  apply Hget; apply get_issues.
Defined.

(** X11 after a [get] with a parameter [limit] and a [delete]: the
    default dictionary holds no [limit]. *)
Lemma default_dictionary_invariant_witness :
  query_default
    (after_calls (ext := Sample.externals (Ok "true"))
       [CallGet (mkClient (PStr "T")) "me" {["limit" := PInt 5]};
        CallDelete (mkClient (PStr "T")) "1"]
       initial_state) !! "limit"
  = None.
Proof.
  apply (default_dictionary_invariant (ext := Sample.externals (Ok "true"))
           [CallGet (mkClient (PStr "T")) "me" {["limit" := PInt 5]};
            CallDelete (mkClient (PStr "T")) "1"]
           "limit").
  discriminate.
Defined.

(** X12 on the signed request that the sample parser accepts. *)
Lemma signed_request_token_is_attached_witness :
  outcome (GraphAPI.__init__ (ext := Sample.externals (Ok "true"))
             PNone (PStr "signed.request") (PStr "secret")) initial_state
  = Ok (mkClient (PStr "token-of-the-signed-request"))
  ∧ ∃ r, issues (GraphAPI.get (ext := Sample.externals (Ok "true"))
                   (mkClient (PStr "token-of-the-signed-request")) "me" ∅)
           initial_state [r]
         ∧ sent_params r !! "access_token"
           = Some (PStr "token-of-the-signed-request")
         ∧ sent_url r
           = "https://graph.facebook.com/me?access_token=token-of-the-signed-request".
Proof.
  destruct (signed_request_token_is_attached
              (ext := Sample.externals (Ok "true"))
              PNone (PStr "signed.request") (PStr "secret")
              {["oauth_token" := PStr "token-of-the-signed-request";
                "user_id" := PStr "4"]} initial_state)
    as (Hinit & Hrequests); [reflexivity | reflexivity | reflexivity | reflexivity |].
  split; [exact Hinit|].
  destruct (Hrequests (PStr "token-of-the-signed-request")) as (Hget & _);
    [vm_compute; reflexivity | reflexivity |].
  destruct (Hget "me" ∅ initial_state)
    as (r & Hissues & _ & (_ & Hurl) & Htoken).
  exists r. split; [exact Hissues|]. split; [exact Htoken|].
  rewrite Hurl.
  apply (issues_inj _ _ _ _ (get_issues _ _ _ _)) in Hissues.
  injection Hissues as <-. vm_compute. reflexivity.
Defined.

(** X13 on a signed request that the sample parser refuses. *)
Lemma construction_effects_witness :
  outcome (GraphAPI.__init__ (ext := Sample.externals (Ok "true"))
             PNone (PStr "garbage") (PStr "secret")) initial_state
  = Raise (ValueError "Signed request malformed").
Proof.
  destruct (construction_effects (ext := Sample.externals (Ok "true"))
              PNone (PStr "garbage") (PStr "secret") initial_state
              (ValueError "Signed request malformed"))
    as (_ & _ & _ & Hraise).
  apply Hraise. repeat split.
Defined.

(** X14 on the body [{"data": false}], for [get], [post] and
    [delete]. *)
Lemma data_envelope_holding_False_witness :
  (∃ message,
     outcome (GraphAPI.get (ext := Sample.externals (Ok Sample.body_data_false))
                (mkClient PNone) "me" ∅) initial_state
     = Raise (Error (PStr message)))
  ∧ (∃ message,
       outcome (GraphAPI.post (ext := Sample.externals (Ok Sample.body_data_false))
                  (mkClient PNone) "me" ∅) initial_state
       = Raise (Error (PStr message)))
  ∧ (∃ message,
       outcome (GraphAPI.delete (ext := Sample.externals (Ok Sample.body_data_false))
                  (mkClient PNone) "me") initial_state
       = Raise (Error (PStr message))).
Proof.
  destruct (data_envelope_holding_False
              (ext := Sample.externals (Ok Sample.body_data_false))
              Sample.body_data_false {["data" := PBool false]}
              (mkClient PNone) "me" "x" "post" ∅ initial_state)
    as ((r1 & _ & Hget) & (r2 & _ & Hpost) & (r3 & _ & Hdelete) & _);
    [vm_compute; reflexivity | vm_compute; reflexivity
    | vm_compute; reflexivity |].
  split; [|split].
  - apply Hget. reflexivity.
  - apply Hpost. reflexivity.
  - apply Hdelete. reflexivity.
Defined.
